(** * Gemini.js: request executor, capability handlers, chat session

    A shallow embedding of the library's executable core (the file that
    defines [GeminiClient], the handlers, [ChatSession], the response
    wrappers, [GeminiError] and [isRetryableError]) and the properties
    of it that the specification states.

    Conventions of the embedding.
    - A JavaScript number that the code only tests and copies (the
      generation settings) is a binary64 float, as in the language.
      A number the code counts with ([maxRetries], [retries], HTTP
      status codes, delays) is an integer of [Z]: counters and status
      codes stay far below 2^53, where JavaScript arithmetic is exact,
      and a delay [2 ** retries * 500] is a power of two times 125,
      which binary64 holds exactly for every [retries] up to 1000.
    - An optional property is an [option]; [None] is [undefined].
    - Arrays that the code mutates in place live in a heap of arrays
      addressed by location, so that copying an array and aliasing it
      are different things.
    - The outside world is part of the state: the trace of network
      attempts and backoff waits performed so far, and the remote
      service, which answers the k-th network attempt as a function of
      the request sent.
    - A computation returns a completion (a value or a thrown error)
      together with the world it leaves behind; effects performed before
      a throw persist. *)

From Stdlib Require Import ZArith String List Bool Lia Sorted.
From Stdlib Require Import Floats.PrimFloat.
From stdpp Require Import gmap strings list.

Set Warnings "-inexact-float".

(** ** JavaScript values used by the library *)

Abbreviation number := float.

(** Truthiness, as tested by [||], [!] and [if]. *)
Class Truthy (A : Type) := truthy : A -> bool.

(** [0], [-0] and [NaN] are falsy. *)
#[export] Instance truthy_number : Truthy number :=
  fun x => if PrimFloat.eqb x x then negb (PrimFloat.eqb x 0%float) else false.

#[export] Instance truthy_integer : Truthy Z :=
  fun n => negb (n =? 0)%Z.

(** Only the empty string is falsy. *)
#[export] Instance truthy_string : Truthy string :=
  fun s => match s with EmptyString => false | String _ _ => true end.

(** Every array is truthy, the empty one included. *)
#[export] Instance truthy_array {A : Type} : Truthy (list A) :=
  fun _ => true.

(** [undefined] is falsy. *)
#[export] Instance truthy_optional {A : Type} `{Truthy A} : Truthy (option A) :=
  fun o => match o with Some v => truthy v | None => false end.

(** [v || d] where [v] may be absent. *)
Definition js_or {A : Type} `{Truthy A} (v : option A) (d : A) : A :=
  match v with
  | Some x => if truthy x then x else d
  | None => d
  end.

Notation "v <||> d" := (js_or v d) (at level 45, left associativity).

(** Values that are neither strings nor binary objects. *)
Inductive OtherValue :=
| JsNumber (n : number)
| JsBoolean (b : bool)
| JsNull
| JsUndefined
| JsPlainObject.

(** ** Errors *)

(** A thrown value: a [GeminiError] (whose [name] is ['GeminiError']),
    or any other error object, of which the code reads only [name]. *)
Inductive JsError :=
| GeminiError (message : string) (code : Z)
| OtherError (name : string) (message : string).

Definition error_name (error : JsError) : string :=
  match error with
  | GeminiError _ _ => "GeminiError"
  | OtherError name _ => name
  end.

Definition TypeError (message : string) : JsError := OtherError "TypeError" message.

Inductive Completion (A : Type) :=
| Return (a : A)
| Throw (e : JsError).
Arguments Return {A} a.
Arguments Throw {A} e.

(** [isRetryableError(error)] *)
Definition isRetryableError (error : JsError) : bool :=
  match error with
  | GeminiError _ code => existsb (Z.eqb code) [429; 500; 502; 503; 504]%Z
  | OtherError name _ => String.eqb name "TypeError" || String.eqb name "NetworkError"
  end.

(** ** Request payloads *)

Inductive Part :=
| TextPart (text : string)
| InlineDataPart (mime_type data : string)
| UndefinedPart.

Record Content := {
  role : option string;
  parts : list Part
}.

Record SafetySetting := {
  setting_category : string;
  setting_threshold : string
}.

Record GenerationConfig := {
  temperature : number;
  topK : number;
  topP : number;
  maxOutputTokens : number;
  stopSequences : option (list string)
}.

(** The JSON text sent as the request body, by shape. *)
Inductive Payload :=
| GenerateContentBody (contents : list Content)
                      (generationConfig : GenerationConfig)
                      (safetySettings : option (list SafetySetting))
| EmbedContentBody (model : string) (content_parts : list Part)
| EmptyBody.

Record Request := {
  req_url : string;
  req_body : Payload;
  req_timeout : Z
}.

(** ** Responses *)

Record ResponsePart := { part_text : option string }.

Record CandidateContent := { content_parts : option (list ResponsePart) }.

Record SafetyRating := {
  rating_category : string;
  rating_probability : string
}.

Record Candidate := {
  content : option CandidateContent;
  candidate_safetyRatings : option (list SafetyRating)
}.

Record Embedding := { values : list number }.

Record ErrorBody := {
  error_message : string;
  error_status : string
}.

(** A decoded JSON body: an object of which the library reads these
    four properties. *)
Record RawResponse := {
  candidates : option (list Candidate);
  embeddings : option (list Embedding);
  models : option (list string);
  error : option ErrorBody
}.

(** What [fetch] resolves with, for a body that is read to its end.
    [json = None]: the body is not JSON and [response.json()] rejects
    with a SyntaxError. *)
Record Response := {
  status : Z;
  statusText : string;
  json : option RawResponse
}.

(** [response.ok]: the status is in the range 200-299. *)
Definition ok (response : Response) : bool :=
  (200 <=? status response)%Z && (status response <=? 299)%Z.

(** How one attempt ends: the abort timer fires first; or the transport
    fails and [fetch] rejects; or the service answers and the body is
    read to its end; or the service answers (its status is known) and
    reading the body fails, so that [response.json()] rejects with a
    TypeError. *)
Inductive FetchOutcome :=
| TimerFires
| FetchFails (name message : string)
| Responds (response : Response)
| BodyUnreadable (response : Response) (message : string).

(** The remote service and the transport: the outcome of the k-th
    network attempt (counted from 0 over the life of the world), given
    the request. *)
Definition Network := nat -> Request -> FetchOutcome.

(** ** The world *)

Inductive Event :=
| EvFetch (request : Request)
| EvSleep (ms : Z).

Abbreviation loc := nat (only parsing).

Record World := {
  heap : gmap nat (list Content);
  trace : list Event;
  network : Network
}.

Definition set_heap (h : gmap nat (list Content)) (w : World) : World :=
  {| heap := h; trace := trace w; network := network w |}.

Definition log_event (ev : Event) (w : World) : World :=
  {| heap := heap w; trace := trace w ++ [ev]; network := network w |}.

(** Number of network attempts in a trace. *)
(** The requests of a trace, in order. *)
Fixpoint requests (evs : list Event) : list Request :=
  match evs with
  | [] => []
  | EvFetch request :: evs' => request :: requests evs'
  | EvSleep _ :: evs' => requests evs'
  end.

(** Number of network attempts in a trace. *)
Definition fetch_count (evs : list Event) : nat := length (requests evs).

(** The backoff waits of a trace, in order. *)
Fixpoint sleeps (evs : list Event) : list Z :=
  match evs with
  | [] => []
  | EvFetch _ :: evs' => sleeps evs'
  | EvSleep ms :: evs' => ms :: sleeps evs'
  end.

(** ** Computations *)

Definition M (A : Type) : Type := World -> Completion A * World.

Definition ret {A : Type} (a : A) : M A := fun w => (Return a, w).

Definition throw {A : Type} (e : JsError) : M A := fun w => (Throw e, w).

Definition bind {A B : Type} (m : M A) (k : A -> M B) : M B :=
  fun w =>
    match m w with
    | (Return a, w') => k a w'
    | (Throw e, w') => (Throw e, w')
    end.

Definition lift {A : Type} (c : Completion A) : M A := fun w => (c, w).

Notation "'let*' x ':=' m 'in' k" := (bind m (fun x => k))
  (at level 10, x name, m at level 100, k at level 200).

(** [new Promise(resolve => setTimeout(resolve, ms))], awaited. *)
Definition sleep (ms : Z) : M unit := fun w => (Return tt, log_event (EvSleep ms) w).

(** *** Arrays on the heap *)

(** An array literal or any other freshly created array. *)
Definition array_new (items : list Content) : M loc :=
  fun w =>
    let l := fresh (dom (heap w)) in
    (Return l, set_heap (<[l := items]> (heap w)) w).

Definition array_read (l : loc) : M (list Content) :=
  fun w => (Return (heap w !!! l), w).

(** [array.push(x)] *)
Definition array_push (l : loc) (x : Content) : M unit :=
  fun w => (Return tt, set_heap (alter (fun a => a ++ [x]) l (heap w)) w).

(** [array.unshift(x)] *)
Definition array_unshift (l : loc) (x : Content) : M unit :=
  fun w => (Return tt, set_heap (alter (fun a => x :: a) l (heap w)) w).

(** [[...array]] *)
Definition array_spread (l : loc) : M loc :=
  let* items := array_read l in array_new items.

(** The request data of a call: what [JSON.stringify(data)] yields when
    it walks the object, reading the arrays it refers to. *)
Definition Data := gmap nat (list Content) -> Payload.

(** ** Response wrappers *)

Module TextResponse.

Record t := {
  raw : RawResponse;
  _candidates : list Candidate
}.

(** [new TextResponse(rawResponse)]; reading a property of [undefined]
    throws. *)
Definition constructor (rawResponse : option RawResponse) : Completion t :=
  match rawResponse with
  | None => Throw (TypeError "Cannot read properties of undefined (reading 'candidates')")
  | Some r => Return {| raw := r; _candidates := candidates r <||> [] |}
  end.

(** [parts.map(part => part.text || '').join('')] *)
Definition join_texts (ps : list ResponsePart) : string :=
  String.concat "" (List.map (fun part => part_text part <||> "") ps).

(** [text()] *)
Definition text (this : t) : Completion string :=
  if (length (_candidates this) =? 0)%nat then Return ""
  else
    match _candidates this !! 0%nat with
    | None => Throw (TypeError "Cannot read properties of undefined (reading 'content')")
    | Some candidate =>
        match content candidate with
        | None => Throw (TypeError "Cannot read properties of undefined (reading 'parts')")
        | Some c => Return (join_texts (content_parts c <||> []))
        end
    end.

(** [candidates()] *)
Definition candidates (this : t) : list Candidate := _candidates this.

(** [safetyRatings()] *)
Definition safetyRatings (this : t) : Completion (list SafetyRating) :=
  if (length (_candidates this) =? 0)%nat then Return []
  else
    match _candidates this !! 0%nat with
    | None => Throw (TypeError "Cannot read properties of undefined (reading 'safetyRatings')")
    | Some candidate => Return (candidate_safetyRatings candidate <||> [])
    end.

End TextResponse.

Module EmbeddingsResponse.

Record t := { raw : option RawResponse }.

Definition constructor (rawResponse : option RawResponse) : t :=
  {| raw := rawResponse |}.

(** [embeddings()]: [this.raw.embeddings?.map(emb => emb.values) || []] *)
Definition embeddings (this : t) : Completion (list (list number)) :=
  match raw this with
  | None => Throw (TypeError "Cannot read properties of undefined (reading 'embeddings')")
  | Some r => Return (option_map (List.map values) (embeddings r) <||> [])
  end.

End EmbeddingsResponse.

(** ** The client and its request executor *)

Module ClientOptions.
Record t := {
  model : option string;
  maxRetries : option Z;
  timeout : option Z
}.
Definition empty : t := {| model := None; maxRetries := None; timeout := None |}.
End ClientOptions.

Module GeminiClient.

Record t := {
  apiKey : string;
  baseUrl : string;
  model : string;
  maxRetries : Z;
  timeout : Z
}.

(** [new GeminiClient(apiKey, options)]. Past the check, [apiKey] is a
    non-empty string, which is what [apiKey <||> ""] then yields. *)
Definition constructor (apiKey : option string) (options : ClientOptions.t) : Completion t :=
  if negb (truthy apiKey) then Throw (OtherError "Error" "API key is required")
  else
    Return {|
      apiKey := apiKey <||> "";
      baseUrl := "https://generativelanguage.googleapis.com/v1beta";
      model := ClientOptions.model options <||> "gemini-1.5-pro";
      maxRetries := ClientOptions.maxRetries options <||> 3%Z;
      timeout := ClientOptions.timeout options <||> 30000%Z
    |}.

Definition url_of (this : t) (endpoint : string) : string :=
  baseUrl this +:+ "/" +:+ endpoint +:+ "?key=" +:+ apiKey this.

(** What the body of the [try] block evaluates to once [fetch] has
    settled. [response.json()] is awaited on both branches, before the
    [GeminiError] is built or the body returned, so its rejection is
    what the block throws. The message of the [GeminiError] is
    [error.error || response.statusText] converted to a string, and
    [error.error], when present, is an object. *)
Definition settle (outcome : FetchOutcome) : Completion RawResponse :=
  match outcome with
  | TimerFires => Throw (OtherError "AbortError" "The operation was aborted.")
  | FetchFails name message => Throw (OtherError name message)
  | Responds response =>
      if negb (ok response) then
        match json response with
        | None => Throw (OtherError "SyntaxError" "Unexpected token")
        | Some body =>
            Throw (GeminiError
                     (match error body with
                      | Some _ => "[object Object]"
                      | None => statusText response
                      end)
                     (status response))
        end
      else
        match json response with
        | None => Throw (OtherError "SyntaxError" "Unexpected token")
        | Some body => Return body
        end
  | BodyUnreadable response message => Throw (OtherError "TypeError" message)
  end.

(** The request of one attempt. *)
Definition request_of (this : t) (url : string) (data : Data) (w : World) : Request :=
  {| req_url := url; req_body := data (heap w); req_timeout := timeout this |}.

(** One pass through the [try] block: start the timer, [fetch], decode. *)
Definition attempt (this : t) (url : string) (data : Data) : M RawResponse :=
  fun w =>
    let request := request_of this url data w in
    let outcome := network w (fetch_count (trace w)) request in
    (settle outcome, log_event (EvFetch request) w).

(** The [while (retries <= this.maxRetries)] loop, entered with the
    current value of [retries]. [None]: the fuel ran out before the loop
    ended. The result [Return None] is the [undefined] that the function
    returns when the loop ends without a [return]. *)
Fixpoint request_loop (fuel : nat) (this : t) (url : string) (data : Data)
    (retries : Z) (w : World) : option (Completion (option RawResponse) * World) :=
  if (retries <=? maxRetries this)%Z then
    match fuel with
    | O => None
    | S fuel' =>
        match attempt this url data w with
        | (Return body, w1) => Some (Return (Some body), w1)
        | (Throw error, w1) =>
            let retries := (retries + 1)%Z in
            if String.eqb (error_name error) "AbortError" then
              Some (Throw (GeminiError "Request timed out" 408), w1)
            else if (retries >? maxRetries this)%Z || negb (isRetryableError error) then
              Some (Throw error, w1)
            else
              request_loop fuel' this url data retries
                (snd (sleep (2 ^ retries * 500) w1))
        end
    end
  else Some (Return None, w).

(** Iterations that the loop can take from [retries]. *)
Definition fuel_from (this : t) (retries : Z) : nat :=
  Z.to_nat (maxRetries this + 1 - retries).

(** [request(endpoint, data)]. The fuel given always suffices
    ([request_loop_terminates]), so the last branch is never taken. *)
Definition request (this : t) (endpoint : string) (data : Data) : M (option RawResponse) :=
  fun w =>
    let url := url_of this endpoint in
    match request_loop (fuel_from this 0) this url data 0 w with
    | Some result => result
    | None => (Return None, w)
    end.

(** [listModels()] *)
Definition listModels (this : t) : M (list string) :=
  let* response := request this "models" (fun _ => EmptyBody) in
  match response with
  | None => throw (TypeError "Cannot read properties of undefined (reading 'models')")
  | Some r => ret (models r <||> [])
  end.

End GeminiClient.

(** ** Capability handlers *)

(** The per-call options object. *)
Module GenerationOptions.
Record t := {
  model : option string;
  temperature : option number;
  topK : option number;
  topP : option number;
  maxTokens : option number;
  stopSequences : option (list string);
  safetySettings : option (list SafetySetting)
}.
Definition empty : t :=
  {| model := None; temperature := None; topK := None; topP := None;
     maxTokens := None; stopSequences := None; safetySettings := None |}.
End GenerationOptions.

(** A prompt: a string, or an object with optional [parts] and [text]. *)
Inductive Prompt :=
| PromptString (s : string)
| PromptObject (prompt_parts : option (list Part)) (prompt_text : option string).

Module TextHandler.

(** The [data] object built by [generate]. *)
Definition generate_data (prompt : Prompt) (options : GenerationOptions.t) : Payload :=
  GenerateContentBody
    [ {| role := None;
         parts := match prompt with
                  | PromptString s => [TextPart s]
                  | PromptObject prompt_parts prompt_text =>
                      prompt_parts <||> [TextPart (prompt_text <||> "")]
                  end |} ]
    {| temperature := GenerationOptions.temperature options <||> 0.7%float;
       topK := GenerationOptions.topK options <||> 40%float;
       topP := GenerationOptions.topP options <||> 0.95%float;
       maxOutputTokens := GenerationOptions.maxTokens options <||> 1024%float;
       stopSequences := Some (GenerationOptions.stopSequences options <||> []) |}
    (Some (GenerationOptions.safetySettings options <||> [])).

(** [generate(prompt, options)] on the handler of [client]. *)
Definition generate (client : GeminiClient.t) (prompt : Prompt)
    (options : GenerationOptions.t) : M TextResponse.t :=
  let model := GenerationOptions.model options <||> GeminiClient.model client in
  let endpoint := "models/" +:+ model +:+ ":generateContent" in
  let data := generate_data prompt options in
  let* response := GeminiClient.request client endpoint (fun _ => data) in
  lift (TextResponse.constructor response).

End TextHandler.

(** A [Blob] or [File]: its [type], and the base64 text that
    [_blobToBase64] resolves with (the encoding itself is the browser's). *)
Record Blob := {
  blob_type : string;
  blob_base64 : string
}.

(** The [image] argument, by the tests the code applies to it. *)
Inductive ImageInput :=
| ImageString (s : string)
| ImageBlob (b : Blob)
| ImageOther (v : OtherValue).

Module VisionHandler.

Definition default_prompt : string := "Describe this image in detail".

(** The [imagePart] variable after the [if]/[else if] chain; a variable
    that is never assigned holds [undefined]. *)
Definition imagePart_of (image : ImageInput) : Completion Part :=
  match image with
  | ImageString s =>
      if String.prefix "data:" s || String.prefix "http" s then
        Return (InlineDataPart "image/jpeg" s)
      else
        Throw (OtherError "Error" "Image must be a URL, base64 string, Blob, or File")
  | ImageBlob b =>
      Return (InlineDataPart (Some (blob_type b) <||> "image/jpeg") (blob_base64 b))
  | ImageOther _ => Return UndefinedPart
  end.

(** [analyze(image, prompt, options)]; [prompt = None] is an omitted
    argument, which takes the default. *)
Definition analyze (client : GeminiClient.t) (image : ImageInput)
    (prompt : option string) (options : GenerationOptions.t) : M TextResponse.t :=
  let prompt := match prompt with Some p => p | None => default_prompt end in
  let model := GenerationOptions.model options <||> GeminiClient.model client in
  let endpoint := "models/" +:+ model +:+ ":generateContent" in
  let* imagePart := lift (imagePart_of image) in
  let data :=
    GenerateContentBody
      [ {| role := None; parts := [imagePart; TextPart prompt] |} ]
      {| temperature := GenerationOptions.temperature options <||> 0.7%float;
         topK := GenerationOptions.topK options <||> 40%float;
         topP := GenerationOptions.topP options <||> 0.95%float;
         maxOutputTokens := GenerationOptions.maxTokens options <||> 1024%float;
         stopSequences := None |}
      None in
  let* response := GeminiClient.request client endpoint (fun _ => data) in
  lift (TextResponse.constructor response).

End VisionHandler.

(** The [texts] argument: a string or an array of strings. *)
Inductive TextsInput :=
| OneText (s : string)
| ManyTexts (l : list string).

Module EmbeddingsHandler.

(** [Array.isArray(texts) ? texts : [texts]] *)
Definition textArray_of (texts : TextsInput) : list string :=
  match texts with
  | ManyTexts l => l
  | OneText s => [s]
  end.

(** The [data] object built by [generate]. *)
Definition generate_data (texts : TextsInput) (options : GenerationOptions.t) : Payload :=
  let model := GenerationOptions.model options <||> "embedding-001" in
  EmbedContentBody ("models/" +:+ model)
    (List.map (fun text => TextPart text) (textArray_of texts)).

(** [generate(texts, options)] *)
Definition generate (client : GeminiClient.t) (texts : TextsInput)
    (options : GenerationOptions.t) : M EmbeddingsResponse.t :=
  let model := GenerationOptions.model options <||> "embedding-001" in
  let endpoint := "models/" +:+ model +:+ ":embedContent" in
  let data := generate_data texts options in
  let* response := GeminiClient.request client endpoint (fun _ => data) in
  ret (EmbeddingsResponse.constructor response).

End EmbeddingsHandler.

(** ** Chat session *)

Module ChatOptions.
Record t := {
  model : option string;
  systemPrompt : option string
}.
Definition empty : t := {| model := None; systemPrompt := None |}.
End ChatOptions.

Module ChatSession.

(** [messages] is a reference to the array that holds the turn log. *)
Record t := {
  client : GeminiClient.t;
  model : string;
  messages : loc;
  systemPrompt : string
}.

(** [new ChatSession(client, options)] *)
Definition constructor (client : GeminiClient.t) (options : ChatOptions.t) : M t :=
  let* messages := array_new [] in
  ret {| client := client;
         model := ChatOptions.model options <||> GeminiClient.model client;
         messages := messages;
         systemPrompt := ChatOptions.systemPrompt options <||> "" |}.

Definition user_turn (message : string) : Content :=
  {| role := Some "user"; parts := [TextPart message] |}.

Definition model_turn (text : string) : Content :=
  {| role := Some "model"; parts := [TextPart text] |}.

Definition system_turn (systemPrompt : string) : Content :=
  {| role := Some "system"; parts := [TextPart systemPrompt] |}.

(** The [data] object of a call, whose [contents] is the array at
    [contents]. *)
Definition send_data (contents : loc) (options : GenerationOptions.t) : Data :=
  fun h =>
    GenerateContentBody (h !!! contents)
      {| temperature := GenerationOptions.temperature options <||> 0.7%float;
         topK := GenerationOptions.topK options <||> 40%float;
         topP := GenerationOptions.topP options <||> 0.95%float;
         maxOutputTokens := GenerationOptions.maxTokens options <||> 1024%float;
         stopSequences := None |}
      None.

(** [send(message, options)] *)
Definition send (this : t) (message : string) (options : GenerationOptions.t)
    : M TextResponse.t :=
  let* _ := array_push (messages this) (user_turn message) in
  let endpoint := "models/" +:+ model this +:+ ":generateContent" in
  let* contents := array_spread (messages this) in
  let* _ := (if truthy (systemPrompt this)
             then array_unshift contents (system_turn (systemPrompt this))
             else ret tt) in
  let data := send_data contents options in
  let* response := GeminiClient.request (client this) endpoint data in
  let* textResponse := lift (TextResponse.constructor response) in
  let* text := lift (TextResponse.text textResponse) in
  let* _ := array_push (messages this) (model_turn text) in
  ret textResponse.

(** [clear()]: the session now refers to a new, empty array. *)
Definition clear (this : t) : M t :=
  let* messages := array_new [] in
  ret {| client := client this; model := model this;
         messages := messages; systemPrompt := systemPrompt this |}.

(** [getHistory()]: the reference itself, not a copy. *)
Definition getHistory (this : t) : loc := messages this.

(** The turn log as it stands in a world. *)
Definition history (this : t) (w : World) : list Content :=
  heap w !!! messages this.

(** A sequence of [send] calls on one session, each awaited before the
    next; a failed call does not stop the caller from calling again. *)
Fixpoint send_all (this : t) (calls : list (string * GenerationOptions.t)) (w : World)
    : list (Completion TextResponse.t) * World :=
  match calls with
  | [] => ([], w)
  | (message, options) :: rest =>
      let (r, w1) := send this message options w in
      let (rs, w2) := send_all this rest w1 in
      (r :: rs, w2)
  end.

End ChatSession.

(** ** Further methods of the library *)

(** [GeminiClient.setModel(model)]: the client object after the
    assignment [this.model = model]. *)
Definition setModel (this : GeminiClient.t) (model : string) : GeminiClient.t :=
  {| GeminiClient.apiKey := GeminiClient.apiKey this;
     GeminiClient.baseUrl := GeminiClient.baseUrl this;
     GeminiClient.model := model;
     GeminiClient.maxRetries := GeminiClient.maxRetries this;
     GeminiClient.timeout := GeminiClient.timeout this |}.

(** [TextHandler.chat(options)] *)
Definition chat (client : GeminiClient.t) (options : ChatOptions.t) : M ChatSession.t :=
  ChatSession.constructor client options.

Definition newline : string := String (Ascii.ascii_of_nat 10) EmptyString.

Module CodeHandler.

(** The object that [generate] returns: [code], and the own properties
    of the response wrapper that the spread copies. *)
Record Generated := {
  code : string;
  raw : RawResponse;
  _candidates : list Candidate
}.

(** The template string of [generate]. *)
Definition generate_prompt (description language : string) : string :=
  "Generate " +:+ language +:+ " code that " +:+ description
  +:+ ". Provide only the code with no explanations.".

(** [{...options, temperature: options.temperature || 0.2}] *)
Definition generate_options (options : GenerationOptions.t) : GenerationOptions.t :=
  {| GenerationOptions.model := GenerationOptions.model options;
     GenerationOptions.temperature :=
       Some (GenerationOptions.temperature options <||> 0.2%float);
     GenerationOptions.topK := GenerationOptions.topK options;
     GenerationOptions.topP := GenerationOptions.topP options;
     GenerationOptions.maxTokens := GenerationOptions.maxTokens options;
     GenerationOptions.stopSequences := GenerationOptions.stopSequences options;
     GenerationOptions.safetySettings := GenerationOptions.safetySettings options |}.

(** [generate(description, language, options)]; in the object literal
    [response.text()] is evaluated before the spread. *)
Definition generate (client : GeminiClient.t) (description language : string)
    (options : GenerationOptions.t) : M Generated :=
  let prompt := generate_prompt description language in
  let* response :=
    TextHandler.generate client (PromptString prompt) (generate_options options) in
  let* code := lift (TextResponse.text response) in
  ret {| code := code;
         raw := TextResponse.raw response;
         _candidates := TextResponse._candidates response |}.

(** [analyze(code, options)] *)
Definition analyze (client : GeminiClient.t) (code : string)
    (options : GenerationOptions.t) : M TextResponse.t :=
  let prompt :=
    "Analyze this code and explain what it does:" +:+ newline +:+ newline +:+ code in
  TextHandler.generate client (PromptString prompt) options.

(** [improve(code, options)] *)
Definition improve (client : GeminiClient.t) (code : string)
    (options : GenerationOptions.t) : M TextResponse.t :=
  let prompt := "Suggest improvements for this code:" +:+ newline +:+ newline +:+ code in
  TextHandler.generate client (PromptString prompt) options.

End CodeHandler.

(** The character [','] (code 44). *)
Definition comma : Ascii.ascii := Ascii.ascii_of_nat 44.

(** [s.split(',')]: the pieces of [s] between its commas. *)
Fixpoint split_comma (s : string) : list string :=
  match s with
  | EmptyString => [EmptyString]
  | String c s' =>
      if Ascii.eqb c comma then EmptyString :: split_comma s'
      else
        match split_comma s' with
        | piece :: pieces => String c piece :: pieces
        | [] => [String c EmptyString]
        end
  end.

(** What [VisionHandler._blobToBase64] resolves with, given the data
    URL that the reader produced: [reader.result.split(',')[1]], which
    is [undefined] when there is no second piece. *)
Definition blobToBase64_result (result : string) : option string :=
  split_comma result !! 1%nat.

(** * Vocabulary of the statements *)

(** ** Traces and the request executor *)

(** The world after further events. *)
Definition log_events (evs : list Event) (w : World) : World :=
  {| heap := heap w; trace := trace w ++ evs; network := network w |}.

(** The attempt answered by [outcome] fails with a Service Error whose
    status code is one of the retryable ones: the service answers with
    that status and a JSON error body. *)
Definition retryable_service_error (outcome : FetchOutcome) : Prop :=
  exists response,
    outcome = Responds response /\
    is_Some (json response) /\
    In (status response) [429; 500; 502; 503; 504]%Z.

(** The attempt answered by [outcome] succeeds with the decoded [body]. *)
Definition succeeds_with (outcome : FetchOutcome) (body : RawResponse) : Prop :=
  exists response,
    outcome = Responds response /\ ok response = true /\ json response = Some body.

(** The events of [n] failed attempts, each followed by its backoff
    wait, and of one more attempt, when the loop is entered with
    [retries]. *)
Fixpoint backoff_events (request : Request) (n : nat) (retries : Z) : list Event :=
  match n with
  | O => [EvFetch request]
  | S n' =>
      EvFetch request :: EvSleep (2 ^ (retries + 1) * 500)
        :: backoff_events request n' (retries + 1)
  end.

(** The same events, retry by retry: the k-th retry (k = 1, 2, ...) is
    preceded by a wait of 500 * 2^k milliseconds. *)
Definition retry_events (request : Request) (n : nat) : list Event :=
  flat_map (fun k => [EvFetch request; EvSleep (500 * 2 ^ Z.of_nat k)]) (seq 1 n)
  ++ [EvFetch request].

(** ** Payloads, bodies and services *)

(** The generation settings that a request body carries. *)
Definition body_config (body : Payload) : option GenerationConfig :=
  match body with
  | GenerateContentBody _ config _ => Some config
  | _ => None
  end.

(** The content sequence that a request body carries. *)
Definition body_contents (body : Payload) : option (list Content) :=
  match body with
  | GenerateContentBody contents _ _ => Some contents
  | _ => None
  end.

(** The text of a text part. *)
Definition part_text_of (part : Part) : string :=
  match part with
  | TextPart text => text
  | _ => ""
  end.

(** The body [{}]. *)
Definition empty_body : RawResponse :=
  {| candidates := None; embeddings := None; models := None; error := None |}.

(** An error body, [{error: {...}}]. *)
Definition error_body : RawResponse :=
  {| candidates := None; embeddings := None; models := None;
     error := Some {| error_message := "unavailable"; error_status := "UNAVAILABLE" |} |}.

(** A reply whose single candidate holds the given text. *)
Definition reply (text : string) : RawResponse :=
  {| candidates :=
       Some [ {| content := Some {| content_parts := Some [ {| part_text := Some text |} ] |};
                 candidate_safetyRatings := None |} ];
     embeddings := None; models := None; error := None |}.

(** A service that embeds positionally: it answers an embedding request
    with one vector per content part, the i-th vector computed from the
    text of the i-th part, and any other request with status 400. *)
Definition positional_backend (embed : string -> list number) : Network :=
  fun _ request =>
    match req_body request with
    | EmbedContentBody _ content_parts =>
        Responds
          {| status := 200; statusText := "OK";
             json := Some {| candidates := None;
                             embeddings :=
                               Some (List.map
                                       (fun part => {| values := embed (part_text_of part) |})
                                       content_parts);
                             models := None; error := None |} |}
    | _ => Responds {| status := 400; statusText := "Bad Request"; json := Some error_body |}
    end.

(** ** The chat session *)

(** The generation settings of a [send]. *)
Definition send_config (options : GenerationOptions.t) : GenerationConfig :=
  {| temperature := GenerationOptions.temperature options <||> 0.7%float;
     topK := GenerationOptions.topK options <||> 40%float;
     topP := GenerationOptions.topP options <||> 0.95%float;
     maxOutputTokens := GenerationOptions.maxTokens options <||> 1024%float;
     stopSequences := None |}.

(** The content sequence of a [send] on a session whose turn log is
    [log]: the system turn when a system prompt is set, then the log,
    then the new user turn. *)
Definition send_contents (this : ChatSession.t) (log : list Content) (message : string)
    : list Content :=
  (if truthy (ChatSession.systemPrompt this)
   then [ChatSession.system_turn (ChatSession.systemPrompt this)]
   else [])
  ++ log ++ [ChatSession.user_turn message].

(** The heap when [send] reaches the network: the user turn is pushed,
    the copy is made and extended. *)
Definition heap_at_request (this : ChatSession.t) (message : string)
    (h : gmap nat (list Content)) : gmap nat (list Content) :=
  let messages := ChatSession.messages this in
  let h1 := alter (fun a => a ++ [ChatSession.user_turn message]) messages h in
  let contents := fresh (dom h1) in
  let h2 := <[contents := h1 !!! messages]> h1 in
  if truthy (ChatSession.systemPrompt this)
  then alter (fun a => ChatSession.system_turn (ChatSession.systemPrompt this) :: a)
         contents h2
  else h2.

(** The location of the copy that [send] makes of the turn log. *)
Definition contents_loc (this : ChatSession.t) (message : string)
    (h : gmap nat (list Content)) : nat :=
  fresh (dom (alter (fun a => a ++ [ChatSession.user_turn message])
                (ChatSession.messages this) h)).

(** The service delivers [body] with a success status on some attempt. *)
Definition delivered (net : Network) (body : RawResponse) : Prop :=
  exists k request response,
    net k request = Responds response /\ ok response = true /\ json response = Some body.

(** The turns that one call leaves in the log: its user turn, and the
    model turn built from the response text when the call returned. *)
Definition turns_of_call (message : string) (result : Completion TextResponse.t)
    : list Content :=
  ChatSession.user_turn message ::
  match result with
  | Return textResponse =>
      match TextResponse.text textResponse with
      | Return text => [ChatSession.model_turn text]
      | Throw _ => []
      end
  | Throw _ => []
  end.

(** The turns of a sequence of calls, in call order. *)
Fixpoint turns_of_calls (calls : list (string * GenerationOptions.t))
    (results : list (Completion TextResponse.t)) : list Content :=
  match calls, results with
  | (message, _) :: calls', result :: results' =>
      turns_of_call message result ++ turns_of_calls calls' results'
  | _, _ => []
  end.

(** A response that a call returned was delivered by the service with a
    success status, and its text could be read. *)
Definition returned_from (net : Network) (result : Completion TextResponse.t) : Prop :=
  match result with
  | Return textResponse =>
      delivered net (TextResponse.raw textResponse)
      /\ exists text, TextResponse.text textResponse = Return text
  | Throw _ => True
  end.

(** A turn whose role is not ['system']. *)
Definition not_system (turn : Content) : Prop := role turn <> Some "system".

(** ** Further conditions on attempts *)

(** The attempt answered by [outcome] throws an error that
    [isRetryableError] accepts. *)
Definition retried_failure (outcome : FetchOutcome) : Prop :=
  exists error,
    GeminiClient.settle outcome = Throw error /\ isRetryableError error = true.

(** The attempt fails in the transport: [fetch] rejects with an error
    named ['TypeError'] or ['NetworkError']. *)
Definition transport_failure (outcome : FetchOutcome) : Prop :=
  exists name message,
    outcome = FetchFails name message /\ (name = "TypeError" \/ name = "NetworkError").

(** ** Calls of a chat session, as the service sees them *)

(** The attempt answered by [outcome] fails in a way that is retried: a
    transport failure, a retryable status with a JSON error body, or a
    response whose body cannot be read to its end. *)
Definition retryable_outcome (outcome : FetchOutcome) : Prop :=
  transport_failure outcome
  \/ retryable_service_error outcome
  \/ exists response message, outcome = BodyUnreadable response message.

(** The attempt answered by [outcome] fails in a way that ends the
    call: the timer fires; [fetch] rejects with an error of another
    name; the body is not JSON; or the status is neither a success nor
    one of the retryable ones. *)
Definition final_outcome (outcome : FetchOutcome) : Prop :=
  outcome = TimerFires
  \/ (exists name message,
        outcome = FetchFails name message /\ name <> "TypeError" /\ name <> "NetworkError")
  \/ (exists response, outcome = Responds response /\ json response = None)
  \/ (exists response,
        outcome = Responds response /\ ok response = false /\ is_Some (json response)
        /\ ~ In (status response) [429; 500; 502; 503; 504]%Z).

(** How the network request of one call ends: the service answers an
    attempt with a success status and a JSON body, or the request is
    given up. *)
Inductive Ending :=
| Answered (body : RawResponse)
| Refused.

(** One [send] call as seen from outside: what the caller passes, how
    many attempts are retried, and how the request ends. *)
Record Call := {
  call_message : string;
  call_options : GenerationOptions.t;
  call_retries : nat;
  call_ending : Ending
}.

(** The text that a success body carries: the texts of the parts of its
    first candidate, concatenated; the empty string when there is no
    candidate; none when the first candidate has no [content]. *)
Definition body_text (body : RawResponse) : option string :=
  match candidates body with
  | None | Some [] => Some ""
  | Some (candidate :: _) =>
      match content candidate with
      | None => None
      | Some c =>
          Some (String.concat ""
                  (List.map (fun part => match part_text part with
                                         | Some text => text
                                         | None => ""
                                         end)
                     (match content_parts c with
                      | Some ps => ps
                      | None => []
                      end)))
      end
  end.

(** The turns that a call leaves in the log: [{role: "user", parts:
    [{text: message}]}], followed by [{role: "model", parts: [{text}]}]
    exactly when the request is answered with a body that carries the
    text. *)
Definition call_turns (c : Call) : list Content :=
  {| role := Some "user"; parts := [TextPart (call_message c)] |}
  :: match call_ending c with
     | Answered body =>
         match body_text body with
         | Some text => [{| role := Some "model"; parts := [TextPart text] |}]
         | None => []
         end
     | Refused => []
     end.

(** The request that a [send] on a session whose turn log is [log] puts
    on the network. *)
Definition chat_request (this : ChatSession.t) (log : list Content) (message : string)
    (options : GenerationOptions.t) : Request :=
  {| req_url :=
       GeminiClient.baseUrl (ChatSession.client this) +:+ "/"
       +:+ ("models/" +:+ ChatSession.model this +:+ ":generateContent")
       +:+ "?key=" +:+ GeminiClient.apiKey (ChatSession.client this);
     req_body :=
       GenerateContentBody
         ((if truthy (ChatSession.systemPrompt this)
           then [{| role := Some "system";
                    parts := [TextPart (ChatSession.systemPrompt this)] |}]
           else [])
          ++ log ++ [{| role := Some "user"; parts := [TextPart message] |}])
         (send_config options) None;
     req_timeout := GeminiClient.timeout (ChatSession.client this) |}.

(** The network attempts that a call takes: none under a negative retry
    budget, else the retried ones and the last. *)
Definition call_attempts (budget : Z) (c : Call) : nat :=
  if (budget <? 0)%Z then 0%nat else S (call_retries c).

(** The service treats the request [sent], whose attempts start at
    attempt [first], as the call [c] says: the retried attempts, at
    most [budget] of them, fail in a way that is retried; the attempt
    after them is answered with the body of the ending, or it fails for
    good, or it fails like the others and the budget is spent. Under a
    negative budget no attempt is made and the request is given up. *)
Definition call_follows (net : Network) (sent : Request) (budget : Z) (first : nat)
    (c : Call) : Prop :=
  if (budget <? 0)%Z then call_ending c = Refused
  else
    (Z.of_nat (call_retries c) <= budget)%Z
    /\ (forall i, (i < call_retries c)%nat -> retryable_outcome (net (first + i)%nat sent))
    /\ match call_ending c with
       | Answered body => succeeds_with (net (first + call_retries c)%nat sent) body
       | Refused =>
           final_outcome (net (first + call_retries c)%nat sent)
           \/ (retryable_outcome (net (first + call_retries c)%nat sent)
               /\ Z.of_nat (call_retries c) = budget)
       end.

(** The service treats a sequence of calls on one session, made one
    after the other from attempt [first] on a turn log [log], as
    [calls] says. *)
Fixpoint network_follows (this : ChatSession.t) (net : Network) (first : nat)
    (log : list Content) (calls : list Call) : Prop :=
  match calls with
  | [] => True
  | c :: rest =>
      let budget := GeminiClient.maxRetries (ChatSession.client this) in
      call_follows net (chat_request this log (call_message c) (call_options c))
        budget first c
      /\ network_follows this net (first + call_attempts budget c)%nat
           (log ++ call_turns c) rest
  end.

(** What the caller gets from a call: the wrapped body when the request
    is answered with a body that carries a text, an error otherwise. *)
Definition call_result (c : Call) (result : Completion TextResponse.t) : Prop :=
  match call_ending c with
  | Answered body =>
      match body_text body with
      | Some text =>
          exists textResponse,
            result = Return textResponse
            /\ TextResponse.raw textResponse = body
            /\ TextResponse.text textResponse = Return text
      | None => exists error, result = Throw error
      end
  | Refused => exists error, result = Throw error
  end.

(** What a sequence of calls passes to [send]. *)
Definition sends_of (calls : list Call) : list (string * GenerationOptions.t) :=
  List.map (fun c => (call_message c, call_options c)) calls.

(** * Sample clients, services and worlds *)

(** A service that answers the first [failures] attempts with status
    [code] and every later one with status 200 and [body]. *)
Definition flaky_network (failures : nat) (code : Z) (body : RawResponse) : Network :=
  fun k _ =>
    if (k <? failures)%nat then
      Responds {| status := code; statusText := "Error"; json := Some error_body |}
    else
      Responds {| status := 200; statusText := "OK"; json := Some body |}.

(** The world before anything has happened. *)
Definition world_of (net : Network) : World :=
  {| heap := ∅; trace := []; network := net |}.

(** The client built with default options. *)
Definition default_client : GeminiClient.t :=
  {| GeminiClient.apiKey := "KEY";
     GeminiClient.baseUrl := "https://generativelanguage.googleapis.com/v1beta";
     GeminiClient.model := "gemini-1.5-pro";
     GeminiClient.maxRetries := 3;
     GeminiClient.timeout := 30000 |}.

(** A service that answers the first attempt with status 503 and lets
    the second one run into the timeout. *)
Definition stalling_network : Network :=
  fun k _ =>
    if (k <? 1)%nat then
      Responds {| status := 503; statusText := "Error"; json := Some error_body |}
    else TimerFires.

(** A service that answers every attempt with status 503. *)
Definition always_503 : Network :=
  fun _ _ => Responds {| status := 503; statusText := "Error"; json := Some error_body |}.

(** The request that the default client sends for the empty payload. *)
Definition sample_request : Request :=
  GeminiClient.request_of default_client
    (GeminiClient.url_of default_client "models/m:generateContent")
    (fun _ => EmptyBody) (world_of stalling_network).

(** Options that set every sampling field to zero. *)
Definition zero_options : GenerationOptions.t :=
  {| GenerationOptions.model := None;
     GenerationOptions.temperature := Some 0%float;
     GenerationOptions.topK := Some 0%float;
     GenerationOptions.topP := Some 0%float;
     GenerationOptions.maxTokens := Some 0%float;
     GenerationOptions.stopSequences := None;
     GenerationOptions.safetySettings := None |}.

(** A session with a system prompt, as [client.text.chat] builds it in
    a world whose heap is empty. *)
Definition sample_session : ChatSession.t :=
  {| ChatSession.client := default_client;
     ChatSession.model := "gemini-1.5-pro";
     ChatSession.messages := 0%nat;
     ChatSession.systemPrompt := "Be brief." |}.

(** The world in which the sample session has just been created. *)
Definition session_world (net : Network) : World :=
  {| heap := {[ 0%nat := [] ]}; trace := []; network := net |}.

(** A service that answers the first attempt with a reply and every
    later one with status 400. *)
Definition one_reply_network : Network :=
  fun k _ =>
    if (k <? 1)%nat then
      Responds {| status := 200; statusText := "OK"; json := Some (reply "hello") |}
    else
      Responds {| status := 400; statusText := "Bad Request"; json := Some error_body |}.

(** Two calls with default options. *)
Definition two_calls : list (string * GenerationOptions.t) :=
  [("hi", GenerationOptions.empty); ("again", GenerationOptions.empty)].

(** The same two calls when both are answered, the first after one
    retry. *)
Definition two_answered_calls : list Call :=
  [ {| call_message := "hi"; call_options := GenerationOptions.empty;
       call_retries := 1; call_ending := Answered (reply "hello") |};
    {| call_message := "again"; call_options := GenerationOptions.empty;
       call_retries := 0; call_ending := Answered (reply "hello") |} ].

(** The same two calls when the second is refused at its first
    attempt. *)
Definition second_call_refused : list Call :=
  [ {| call_message := "hi"; call_options := GenerationOptions.empty;
       call_retries := 0; call_ending := Answered (reply "hello") |};
    {| call_message := "again"; call_options := GenerationOptions.empty;
       call_retries := 0; call_ending := Refused |} ].

(** * Further bodies, services and observations *)

(** A transport that fails twice before the service answers. *)
Definition dropping_network : Network :=
  fun k _ =>
    if (k <? 2)%nat then FetchFails "TypeError" "Failed to fetch"
    else Responds {| status := 200; statusText := "OK"; json := Some (reply "hello") |}.

(** A service that answers every attempt with status 503 and a body
    that is not JSON. *)
Definition html_503 : Network :=
  fun _ _ => Responds {| status := 503; statusText := "Service Unavailable"; json := None |}.

(** A client as the constructor builds it from [maxRetries: -1]. *)
Definition negative_client : GeminiClient.t :=
  {| GeminiClient.apiKey := "KEY";
     GeminiClient.baseUrl := "https://generativelanguage.googleapis.com/v1beta";
     GeminiClient.model := "gemini-1.5-pro";
     GeminiClient.maxRetries := -1;
     GeminiClient.timeout := 30000 |}.

(** A body that lists two models. *)
Definition models_body : RawResponse :=
  {| candidates := None; embeddings := None;
     models := Some ["gemini-1.5-pro"; "embedding-001"]; error := None |}.

(** The session object after [setModel] has been called on its client. *)
Definition session_after_setModel (this : ChatSession.t) (model : string) : ChatSession.t :=
  {| ChatSession.client := setModel (ChatSession.client this) model;
     ChatSession.model := ChatSession.model this;
     ChatSession.messages := ChatSession.messages this;
     ChatSession.systemPrompt := ChatSession.systemPrompt this |}.


(** A success body whose only candidate has no [content]. *)
Definition blocked_body : RawResponse :=
  {| candidates := Some [ {| content := None; candidate_safetyRatings := None |} ];
     embeddings := None; models := None; error := None |}.

(** [s] holds a comma. *)
Fixpoint has_comma (s : string) : bool :=
  match s with
  | EmptyString => false
  | String c s' => Ascii.eqb c comma || has_comma s'
  end.

(** An embedding that tells the texts "a", "b" and "c" apart. *)
Definition text_code (text : string) : list number :=
  if String.eqb text "a" then [1%float]
  else if String.eqb text "b" then [2%float]
  else if String.eqb text "c" then [3%float]
  else [].

(** The request that the default client posts to the endpoint
    [models/m:generateContent] with the empty payload, written out. *)
Definition posted_request : Request :=
  {| req_url := "https://generativelanguage.googleapis.com/v1beta"
                +:+ "/models/m:generateContent?key=KEY";
     req_body := EmptyBody;
     req_timeout := 30000 |}.

(** A service that answers the first attempt with status 503 and a
    body that is not JSON, and every later one with a reply. *)
Definition html_503_once : Network :=
  fun k _ =>
    if (k <? 1)%nat then
      Responds {| status := 503; statusText := "Service Unavailable"; json := None |}
    else Responds {| status := 200; statusText := "OK"; json := Some (reply "hello") |}.


(** * Properties *)

(** ** Traces *)

Lemma log_events_nil w : log_events [] w = w.
Proof. destruct w; unfold log_events; simpl. by rewrite app_nil_r. Qed.

Lemma log_events_app evs1 evs2 w :
  log_events evs2 (log_events evs1 w) = log_events (evs1 ++ evs2) w.
Proof. unfold log_events; simpl. by rewrite app_assoc. Qed.

Lemma log_event_events ev w : log_event ev w = log_events [ev] w.
Proof. reflexivity. Qed.

Lemma requests_app evs1 evs2 : requests (evs1 ++ evs2) = requests evs1 ++ requests evs2.
Proof.
  induction evs1 as [|[request|ms] evs1 IH]; simpl; [done| |done].
  by rewrite IH.
Qed.

Lemma sleeps_app evs1 evs2 : sleeps (evs1 ++ evs2) = sleeps evs1 ++ sleeps evs2.
Proof.
  induction evs1 as [|[request|ms] evs1 IH]; simpl; [done|done|].
  by rewrite IH.
Qed.

Lemma fetch_count_app evs1 evs2 :
  fetch_count (evs1 ++ evs2) = (fetch_count evs1 + fetch_count evs2)%nat.
Proof. unfold fetch_count. by rewrite requests_app, length_app. Qed.

(** ** The request executor *)

Module RequestFacts.
Import GeminiClient.

(** One iteration of the loop, by what the attempt settles to. *)
Lemma request_loop_step fuel this url data retries w :
  request_loop (S fuel) this url data retries w =
  if (retries <=? maxRetries this)%Z then
    let request := request_of this url data w in
    let w1 := log_events [EvFetch request] w in
    match settle (network w (fetch_count (trace w)) request) with
    | Return body => Some (Return (Some body), w1)
    | Throw error =>
        if String.eqb (error_name error) "AbortError" then
          Some (Throw (GeminiError "Request timed out" 408), w1)
        else if (retries + 1 >? maxRetries this)%Z || negb (isRetryableError error) then
          Some (Throw error, w1)
        else
          request_loop fuel this url data (retries + 1)
            (log_events [EvFetch request; EvSleep (2 ^ (retries + 1) * 500)] w)
    end
  else Some (Return None, w).
Proof.
  simpl. unfold attempt.
  destruct (retries <=? maxRetries this)%Z; [|done].
  destruct (settle _) as [body|error]; [done|].
  destruct (String.eqb _ _); [done|].
  destruct (_ || _); [done|].
  f_equal. unfold log_event, log_events; simpl. by rewrite <- app_assoc.
Qed.

(** The loop ends: from [retries], [fuel_from this retries] iterations
    are enough. *)
Lemma request_loop_terminates fuel this url data retries w :
  (fuel_from this retries <= fuel)%nat ->
  is_Some (request_loop fuel this url data retries w).
Proof.
  revert retries w. induction fuel as [|fuel IH]; intros retries w Hfuel.
  - simpl. destruct (Z.leb_spec retries (maxRetries this)); [|eauto].
    unfold fuel_from in Hfuel. lia.
  - rewrite request_loop_step.
    destruct (Z.leb_spec retries (maxRetries this)); [|eauto]. cbv zeta.
    destruct (settle _) as [body|error]; [eauto|].
    destruct (String.eqb _ _); [eauto|].
    destruct (_ || _); [eauto|].
    apply IH. unfold fuel_from in *. lia.
Qed.

Lemma settle_retryable outcome :
  retryable_service_error outcome ->
  exists message code,
    settle outcome = Throw (GeminiError message code) /\
    isRetryableError (GeminiError message code) = true.
Proof.
  intros (response & -> & [body Hbody] & Hstatus).
  exists (match error body with Some _ => "[object Object]" | None => statusText response end),
         (status response).
  unfold settle, ok. rewrite Hbody.
  simpl in Hstatus.
  destruct Hstatus as [<-|[<-|[<-|[<-|[<-|[]]]]]]; by simpl.
Qed.

Lemma settle_succeeds outcome body :
  succeeds_with outcome body -> settle outcome = Return body.
Proof.
  intros (response & -> & Hok & Hbody). unfold settle. by rewrite Hok, Hbody.
Qed.

(** The loop, entered with [retries], when the next [n] attempts fail
    with retryable Service Errors and the one after succeeds. *)
Lemma request_loop_backoff n : forall fuel this url data retries w body,
  (retries + Z.of_nat n <= maxRetries this)%Z ->
  (n < fuel)%nat ->
  (forall i, (i < n)%nat ->
     retryable_service_error
       (network w (fetch_count (trace w) + i)%nat (request_of this url data w))) ->
  succeeds_with
    (network w (fetch_count (trace w) + n)%nat (request_of this url data w)) body ->
  request_loop fuel this url data retries w
  = Some (Return (Some body),
          log_events (backoff_events (request_of this url data w) n retries) w).
Proof.
  induction n as [|n IH]; intros fuel this url data retries w body Hmax Hfuel Hfail Hok;
    (destruct fuel as [|fuel]; [lia|]); rewrite request_loop_step;
    (destruct (Z.leb_spec retries (maxRetries this)); [|lia]); cbv zeta.
  - rewrite Nat.add_0_r in Hok. by rewrite (settle_succeeds _ _ Hok).
  - destruct (settle_retryable _ (Hfail 0%nat ltac:(lia))) as (message & code & Hsettle & Hretry).
    rewrite Nat.add_0_r in Hsettle. rewrite Hsettle, Hretry. simpl error_name.
    change (String.eqb "GeminiError" "AbortError") with false. cbv iota.
    destruct (Z.gtb_spec (retries + 1) (maxRetries this)); [lia|]. simpl orb. cbv iota.
    set (w1 := log_events _ w).
    assert (Hreq : request_of this url data w1 = request_of this url data w) by done.
    assert (Hcount : fetch_count (trace w1) = S (fetch_count (trace w))).
    { subst w1. simpl. rewrite fetch_count_app. unfold fetch_count. simpl. lia. }
    rewrite (IH fuel this url data (retries + 1)%Z w1 body).
    + rewrite Hreq. subst w1. by rewrite log_events_app.
    + lia.
    + lia.
    + intros i Hi. rewrite Hreq, Hcount.
      replace (S (fetch_count (trace w)) + i)%nat with (fetch_count (trace w) + S i)%nat by lia.
      apply Hfail. lia.
    + rewrite Hreq, Hcount.
      by replace (S (fetch_count (trace w)) + n)%nat with (fetch_count (trace w) + S n)%nat by lia.
Qed.

(** The loop, entered with [retries], when every attempt fails with a
    retryable Service Error: after [maxRetries - retries] retries the
    error of the last attempt is thrown, and no wait follows it. *)
Lemma request_loop_gives_up n : forall fuel this url data retries w,
  (retries + Z.of_nat n = maxRetries this)%Z ->
  (n < fuel)%nat ->
  (forall i, (i <= n)%nat ->
     retryable_service_error
       (network w (fetch_count (trace w) + i)%nat (request_of this url data w))) ->
  exists message code,
    settle (network w (fetch_count (trace w) + n)%nat (request_of this url data w))
      = Throw (GeminiError message code)
    /\ request_loop fuel this url data retries w
       = Some (Throw (GeminiError message code),
               log_events (backoff_events (request_of this url data w) n retries) w).
Proof.
  induction n as [|n IH]; intros fuel this url data retries w Hmax Hfuel Hfail;
    (destruct fuel as [|fuel]; [lia|]); rewrite request_loop_step;
    (destruct (Z.leb_spec retries (maxRetries this)); [|lia]); cbv zeta;
    destruct (settle_retryable _ (Hfail 0%nat ltac:(lia))) as (message & code & Hsettle & Hretry);
    rewrite Nat.add_0_r in Hsettle; rewrite Hsettle, Hretry; simpl error_name;
    change (String.eqb "GeminiError" "AbortError") with false; cbv iota.
  - destruct (Z.gtb_spec (retries + 1) (maxRetries this)); [|lia]. simpl orb. cbv iota.
    exists message, code. by rewrite Nat.add_0_r.
  - destruct (Z.gtb_spec (retries + 1) (maxRetries this)); [lia|]. simpl orb. cbv iota.
    set (w1 := log_events _ w).
    assert (Hreq : request_of this url data w1 = request_of this url data w) by done.
    assert (Hcount : fetch_count (trace w1) = S (fetch_count (trace w))).
    { subst w1. simpl. rewrite fetch_count_app. unfold fetch_count. simpl. lia. }
    destruct (IH fuel this url data (retries + 1)%Z w1) as (message' & code' & Hlast & Hloop).
    + lia.
    + lia.
    + intros i Hi. rewrite Hreq, Hcount.
      replace (S (fetch_count (trace w)) + i)%nat with (fetch_count (trace w) + S i)%nat by lia.
      apply Hfail. lia.
    + exists message', code'. rewrite Hreq, Hcount in Hlast. split.
      * by replace (fetch_count (trace w) + S n)%nat
          with (S (fetch_count (trace w)) + n)%nat by lia.
      * rewrite Hloop, Hreq. subst w1. by rewrite log_events_app.
Qed.

Lemma backoff_events_retry request n : forall m,
  backoff_events request n (Z.of_nat m)
  = flat_map (fun k => [EvFetch request; EvSleep (500 * 2 ^ Z.of_nat k)]) (seq (S m) n)
    ++ [EvFetch request].
Proof.
  induction n as [|n IH]; intros m; [done|].
  cbn [backoff_events seq flat_map app].
  replace (Z.of_nat m + 1)%Z with (Z.of_nat (S m)) by lia.
  rewrite IH. do 2 f_equal. f_equal. lia.
Qed.

Lemma requests_retry_events request n :
  requests (retry_events request n) = repeat request (S n).
Proof.
  unfold retry_events. generalize 1%nat as m.
  induction n as [|n IH]; intros m; [done|].
  cbn [seq flat_map app requests]. rewrite IH. done.
Qed.

Lemma sleeps_retry_events request n :
  sleeps (retry_events request n) = List.map (fun k => 500 * 2 ^ Z.of_nat k)%Z (seq 1 n).
Proof.
  unfold retry_events. generalize 1%nat as m.
  induction n as [|n IH]; intros m; [done|].
  cbn [seq flat_map app sleeps List.map]. by rewrite IH.
Qed.

(** A call whose first attempt succeeds returns after that attempt. *)
Lemma request_returns_at_once this endpoint data w body :
  let sent := request_of this (url_of this endpoint) data w in
  (0 <= maxRetries this)%Z ->
  succeeds_with (network w (fetch_count (trace w)) sent) body ->
  request this endpoint data w = (Return (Some body), log_events [EvFetch sent] w).
Proof.
  intros req Hmax Hok. unfold GeminiClient.request.
  rewrite (request_loop_backoff 0 _ this _ data 0%Z w body);
    [done|lia|unfold fuel_from; lia|intros i Hi; lia|by rewrite Nat.add_0_r].
Qed.

(** Against persistent retryable failure a call makes exactly
    [maxRetries + 1] attempts, waits between them only, and throws the
    error of the last attempt. *)
Lemma request_gives_up_after_budget this endpoint data w :
  let sent := request_of this (url_of this endpoint) data w in
  (0 <= maxRetries this)%Z ->
  (forall i, retryable_service_error (network w (fetch_count (trace w) + i)%nat sent)) ->
  exists message code,
    request this endpoint data w
    = (Throw (GeminiError message code),
       log_events (retry_events sent (Z.to_nat (maxRetries this))) w)
    /\ isRetryableError (GeminiError message code) = true
    /\ fetch_count (retry_events sent (Z.to_nat (maxRetries this)))
       = (Z.to_nat (maxRetries this) + 1)%nat.
Proof.
  intros sent Hmax Hfail. unfold GeminiClient.request.
  destruct (request_loop_gives_up (Z.to_nat (maxRetries this)) (fuel_from this 0) this
              (url_of this endpoint) data 0%Z w) as (message & code & Hlast & Hloop).
  - lia.
  - unfold fuel_from. lia.
  - intros i _. apply Hfail.
  - exists message, code. rewrite Hloop. split; [|split].
    + change 0%Z with (Z.of_nat 0). by rewrite backoff_events_retry.
    + destruct (settle_retryable _ (Hfail (Z.to_nat (maxRetries this))))
        as (m' & c' & Hs & Hr). fold sent in Hlast. congruence.
    + unfold fetch_count. rewrite requests_retry_events, repeat_length. lia.
Qed.

End RequestFacts.

Lemma lookup_map_seq {A : Type} (f : nat -> A) n : forall a i d,
  List.map f (seq a n) !! i = Some d -> d = f (a + i)%nat /\ (i < n)%nat.
Proof.
  induction n as [|n IH]; intros a i d; [done|].
  destruct i as [|i]; simpl.
  - intros [= <-]. rewrite Nat.add_0_r. split; [done|lia].
  - intros H. destruct (IH _ _ _ H) as [-> Hi].
    split; [f_equal; lia|lia].
Qed.

Lemma lookup_map {A B : Type} (f : A -> B) (l : list A) (i : nat) :
  List.map f l !! i = f <$> l !! i.
Proof.
  revert i. induction l as [|x l IH]; intros [|i]; simpl; done.
Qed.

Example default_client_constructed :
  GeminiClient.constructor (Some "KEY") ClientOptions.empty = Return default_client.
Proof. reflexivity. Qed.

(** ** C1: a retryable status whose error body is not JSON *)

(** C1 (the code departs from the specification). The default client
    has a budget of 3 retries; the service answers the first attempt
    with status 503, a retryable status, and a body that is not JSON (an
    HTML error page), and would answer the second attempt with status
    200 and a JSON body. [request] does not retry: [response.json()]
    rejects with a SyntaxError before the [GeminiError] carrying the
    status is built, [isRetryableError] rejects that error, and the
    call throws it after its single attempt, without waiting. *)
Theorem retryable_status_with_html_body_is_not_retried :
  let w := world_of html_503_once in
  let request := posted_request in
  GeminiClient.maxRetries default_client = 3%Z
  /\ network w 0%nat request
     = Responds {| status := 503; statusText := "Service Unavailable"; json := None |}
  /\ In 503%Z [429; 500; 502; 503; 504]%Z
  /\ network w 1%nat request
     = Responds {| status := 200; statusText := "OK"; json := Some (reply "hello") |}
  /\ GeminiClient.request default_client "models/m:generateContent" (fun _ => EmptyBody) w
     = (Throw (OtherError "SyntaxError" "Unexpected token"),
        {| heap := heap w; trace := [EvFetch request]; network := network w |}).
Proof.
  cbv zeta. split; [reflexivity|]. split; [reflexivity|].
  split; [simpl; tauto|]. split; reflexivity.
Qed.

(** ** What every execution of the request executor does *)

Lemma settle_TimerFires_name outcome error :
  outcome = TimerFires -> GeminiClient.settle outcome = Throw error ->
  String.eqb (error_name error) "AbortError" = true.
Proof. intros -> [= <-]. reflexivity. Qed.

(** Whatever the service does, the loop only appends events to the
    trace, every request it sends is the same one, and an attempt on
    which the timer fires is the last event of the call, which then
    throws the 408 error. *)
Lemma request_loop_events fuel this url data : forall retries w c w',
  GeminiClient.request_loop fuel this url data retries w = Some (c, w') ->
  let request := GeminiClient.request_of this url data w in
  exists evs,
    w' = log_events evs w /\
    Forall (eq request) (requests evs) /\
    forall k, (k < fetch_count evs)%nat ->
      network w (fetch_count (trace w) + k)%nat request = TimerFires ->
      c = Throw (GeminiError "Request timed out" 408) /\
      exists evs0, evs = evs0 ++ [EvFetch request] /\ fetch_count evs0 = k.
Proof.
  induction fuel as [|fuel IH]; intros retries w c w'.
  - simpl. destruct (retries <=? GeminiClient.maxRetries this)%Z; [done|].
    intros [= <- <-]. exists []. rewrite log_events_nil.
    split; [done|split; [constructor|]]. unfold fetch_count; simpl; lia.
  - rewrite RequestFacts.request_loop_step.
    destruct (retries <=? GeminiClient.maxRetries this)%Z; cbv zeta.
    2:{ intros [= <- <-]. exists []. rewrite log_events_nil.
        split; [done|split; [constructor|]]. unfold fetch_count; simpl; lia. }
    set (request := GeminiClient.request_of this url data w).
    assert (Hone : forall c0 : Completion (option RawResponse),
      (network w (fetch_count (trace w) + 0)%nat request = TimerFires ->
       c0 = Throw (GeminiError "Request timed out" 408)) ->
      exists evs, log_events [EvFetch request] w = log_events evs w /\
        Forall (eq request) (requests evs) /\
        forall k, (k < fetch_count evs)%nat ->
          network w (fetch_count (trace w) + k)%nat request = TimerFires ->
          c0 = Throw (GeminiError "Request timed out" 408) /\
          exists evs0, evs = evs0 ++ [EvFetch request] /\ fetch_count evs0 = k).
    { intros c0 Hc0. exists [EvFetch request]. split; [done|split; [by repeat constructor|]].
      intros k Hk Hnet. unfold fetch_count in Hk; simpl in Hk.
      assert (k = 0)%nat as -> by lia. split; [by apply Hc0|by exists []]. }
    destruct (GeminiClient.settle _) as [body|error] eqn:Hsettle.
    { intros [= <- <-]. apply Hone. rewrite Nat.add_0_r. intros Hnet.
      rewrite Hnet in Hsettle. discriminate. }
    destruct (String.eqb (error_name error) "AbortError") eqn:Hname.
    { intros [= <- <-]. by apply Hone. }
    destruct (_ || _).
    { intros [= <- <-]. apply Hone. rewrite Nat.add_0_r. intros Hnet.
      rewrite (settle_TimerFires_name _ _ Hnet Hsettle) in Hname. discriminate. }
    intros Hloop. apply IH in Hloop. cbv zeta in Hloop.
    destruct Hloop as (evs & -> & Hreqs & Htimer).
    change (GeminiClient.request_of this url data (log_events _ w)) with request in *.
    exists ([EvFetch request; EvSleep (2 ^ (retries + 1) * 500)] ++ evs).
    split; [by rewrite log_events_app|split; [by constructor|]].
    intros k Hk Hnet. destruct k as [|k].
    { rewrite Nat.add_0_r in Hnet.
      rewrite (settle_TimerFires_name _ _ Hnet Hsettle) in Hname. discriminate. }
    rewrite fetch_count_app in Hk. unfold fetch_count at 1 in Hk. simpl in Hk.
    destruct (Htimer k) as (-> & evs0 & -> & Hcount); [lia| |].
    { simpl. rewrite fetch_count_app. unfold fetch_count at 2. simpl.
      by replace (fetch_count (trace w) + 1 + k)%nat
        with (fetch_count (trace w) + S k)%nat by lia. }
    split; [done|].
    exists ([EvFetch request; EvSleep (2 ^ (retries + 1) * 500)] ++ evs0).
    split; [by rewrite <- app_assoc|].
    rewrite fetch_count_app. unfold fetch_count at 1. simpl. lia.
Qed.

Lemma request_events this endpoint data w :
  let request := GeminiClient.request_of this (GeminiClient.url_of this endpoint) data w in
  exists evs,
    snd (GeminiClient.request this endpoint data w) = log_events evs w /\
    Forall (eq request) (requests evs) /\
    forall k, (k < fetch_count evs)%nat ->
      network w (fetch_count (trace w) + k)%nat request = TimerFires ->
      fst (GeminiClient.request this endpoint data w)
        = Throw (GeminiError "Request timed out" 408) /\
      exists evs0, evs = evs0 ++ [EvFetch request] /\ fetch_count evs0 = k.
Proof.
  unfold GeminiClient.request.
  destruct (RequestFacts.request_loop_terminates
              (GeminiClient.fuel_from this 0) this (GeminiClient.url_of this endpoint) data 0 w
              ltac:(lia)) as [[c w'] Hloop].
  rewrite Hloop. by apply request_loop_events in Hloop.
Qed.

Lemma settle_Return outcome body :
  GeminiClient.settle outcome = Return body -> succeeds_with outcome body.
Proof.
  destruct outcome as [|name message|response|response message]; simpl; try done.
  destruct (ok response) eqn:Hok; simpl.
  - destruct (json response) as [b|] eqn:Hjson; [|done].
    intros [= ->]. by exists response.
  - by destruct (json response).
Qed.

(** A body that [request] returns is one that the service delivered
    with a success status. *)
Lemma request_loop_returns fuel this url data : forall retries w body w',
  GeminiClient.request_loop fuel this url data retries w = Some (Return (Some body), w') ->
  exists k, succeeds_with
              (network w k (GeminiClient.request_of this url data w)) body.
Proof.
  induction fuel as [|fuel IH]; intros retries w body w'.
  - simpl. by destruct (retries <=? GeminiClient.maxRetries this)%Z.
  - rewrite RequestFacts.request_loop_step.
    destruct (retries <=? GeminiClient.maxRetries this)%Z; [|done]. cbv zeta.
    destruct (GeminiClient.settle _) as [b|error] eqn:Hsettle.
    { intros [= <- <-]. eexists. by apply settle_Return. }
    destruct (String.eqb _ _); [done|].
    destruct (_ || _); [done|].
    intros Hloop. apply IH in Hloop as [k Hk]. by exists k.
Qed.

Lemma request_returns this endpoint data w body :
  fst (GeminiClient.request this endpoint data w) = Return (Some body) ->
  exists k, succeeds_with
              (network w k (GeminiClient.request_of this
                              (GeminiClient.url_of this endpoint) data w)) body.
Proof.
  unfold GeminiClient.request.
  destruct (RequestFacts.request_loop_terminates
              (GeminiClient.fuel_from this 0) this (GeminiClient.url_of this endpoint)
              data 0 w ltac:(lia)) as [[c w'] Hloop].
  rewrite Hloop. simpl. intros ->. by apply request_loop_returns in Hloop.
Qed.

(** The array heap is not touched by a request. *)
Lemma request_heap this endpoint data w :
  heap (snd (GeminiClient.request this endpoint data w)) = heap w.
Proof. destruct (request_events this endpoint data w) as (evs & -> & _). done. Qed.

(** With a non-negative [maxRetries], a request makes at least one
    network attempt. *)
Lemma request_attempts this endpoint data w :
  (0 <= GeminiClient.maxRetries this)%Z ->
  (fetch_count (trace w)
   < fetch_count (trace (snd (GeminiClient.request this endpoint data w))))%nat.
Proof.
  intros Hmax. unfold GeminiClient.request.
  assert (Hfuel : GeminiClient.fuel_from this 0 = S (Z.to_nat (GeminiClient.maxRetries this))).
  { unfold GeminiClient.fuel_from. lia. }
  rewrite Hfuel, RequestFacts.request_loop_step.
  destruct (Z.leb_spec 0 (GeminiClient.maxRetries this)); [|lia]. cbv zeta.
  assert (Hone : forall evs,
    (fetch_count (trace w)
     < fetch_count (trace (log_events (EvFetch
         (GeminiClient.request_of this (GeminiClient.url_of this endpoint) data w)
         :: evs) w)))%nat).
  { intros evs. simpl. rewrite fetch_count_app. unfold fetch_count at 3. simpl. lia. }
  destruct (GeminiClient.settle _) as [body|error]; [apply Hone|].
  destruct (String.eqb _ _); [apply Hone|].
  destruct (_ || _); [apply Hone|].
  match goal with |- context [GeminiClient.request_loop ?f ?t ?u ?d ?r ?w0] =>
    destruct (RequestFacts.request_loop_terminates f t u d r w0) as [[c w'] Hloop];
      [unfold GeminiClient.fuel_from; lia|]
  end.
  rewrite Hloop. apply request_loop_events in Hloop as (evs & -> & _).
  rewrite log_events_app. apply Hone.
Qed.

(** ** C3: a timed-out attempt *)

(** C3. In any execution of [request], whatever [maxRetries] is: if the
    timer fires on one of the attempts that the call makes, the call
    throws the [GeminiError] with code 408, and that attempt is the last
    thing the call does: no backoff wait and no further attempt follow
    it. *)
Theorem timeout_is_thrown_at_once this endpoint data w c w' evs (k : nat) :
  let request := GeminiClient.request_of this (GeminiClient.url_of this endpoint) data w in
  GeminiClient.request this endpoint data w = (c, w') ->
  trace w' = trace w ++ evs ->
  (k < fetch_count evs)%nat ->
  network w (fetch_count (trace w) + k)%nat request = TimerFires ->
  c = Throw (GeminiError "Request timed out" 408)
  /\ exists evs0, evs = evs0 ++ [EvFetch request] /\ fetch_count evs0 = k /\
       sleeps evs = sleeps evs0.
Proof.
  intros request Hrun Htrace Hk Hnet.
  destruct (request_events this endpoint data w) as (evs' & Hw' & _ & Htimer).
  rewrite Hrun in Hw', Htimer. simpl in Hw', Htimer. subst w'. simpl in Htrace.
  apply app_inv_head in Htrace as <-.
  destruct (Htimer k Hk Hnet) as (-> & evs0 & -> & Hcount).
  split; [done|]. exists evs0. split; [done|split; [done|]].
  rewrite sleeps_app. simpl. by rewrite app_nil_r.
Qed.

Lemma timeout_is_thrown_at_once_witness :
  fst (GeminiClient.request default_client "models/m:generateContent" (fun _ => EmptyBody)
         (world_of stalling_network))
  = Throw (GeminiError "Request timed out" 408)
  /\ exists evs0,
       [EvFetch sample_request; EvSleep 1000; EvFetch sample_request]
       = evs0 ++ [EvFetch sample_request]
       /\ fetch_count evs0 = 1%nat
       /\ sleeps [EvFetch sample_request; EvSleep 1000; EvFetch sample_request] = sleeps evs0.
Proof.
  apply (timeout_is_thrown_at_once default_client "models/m:generateContent"
           (fun _ => EmptyBody) (world_of stalling_network)
           _ (snd (GeminiClient.request default_client "models/m:generateContent"
                     (fun _ => EmptyBody) (world_of stalling_network)))
           [EvFetch sample_request; EvSleep 1000; EvFetch sample_request] 1).
  - apply surjective_pairing.
  - reflexivity.
  - unfold fetch_count. simpl. lia.
  - reflexivity.
Defined.

(** ** C4: a status that is not retryable *)




(** ** C7: an explicit retry budget of zero *)

(** C7 (the code departs from the specification). A client constructed
    with the explicit option [maxRetries: 0] stores a retry budget of 3,
    not 0: [options.maxRetries || 3] takes the default because 0 is
    falsy. Against a service that always answers 503 its request
    executor therefore makes 4 network attempts, with waits of 1000,
    2000 and 4000 ms between them, before it throws. *)
Theorem explicit_zero_maxRetries_becomes_three :
  exists this,
    GeminiClient.constructor (Some "KEY")
      {| ClientOptions.model := None;
         ClientOptions.maxRetries := Some 0%Z;
         ClientOptions.timeout := None |} = Return this
    /\ GeminiClient.maxRetries this = 3%Z
    /\ fst (GeminiClient.request this "models/m:generateContent" (fun _ => EmptyBody)
              (world_of always_503))
       = Throw (GeminiError "[object Object]" 503)
    /\ fetch_count
         (trace (snd (GeminiClient.request this "models/m:generateContent"
                        (fun _ => EmptyBody) (world_of always_503)))) = 4%nat
    /\ sleeps
         (trace (snd (GeminiClient.request this "models/m:generateContent"
                        (fun _ => EmptyBody) (world_of always_503))))
       = [1000; 2000; 4000]%Z.
Proof. exists default_client. repeat split; reflexivity. Qed.

(** ** C6: generation settings and their defaults *)

(** C6 (the code departs from the specification). When the caller sets
    [temperature], [topK], [topP] or [maxTokens] to 0, the request that
    [TextHandler.generate] sends carries the defaults 0.7, 40, 0.95 and
    1024 instead: [options.temperature || 0.7] treats the falsy value 0
    as unset. *)
Theorem zero_settings_are_replaced_by_defaults :
  List.map (fun request => body_config (req_body request))
    (requests
       (trace (snd (TextHandler.generate default_client (PromptString "hi") zero_options
                      (world_of (flaky_network 0 200 (reply "hello")))))))
  = [ Some {| temperature := 0.7%float; topK := 40%float; topP := 0.95%float;
              maxOutputTokens := 1024%float; stopSequences := Some [] |} ]
  /\ PrimFloat.eqb 0.7%float 0%float = false.
Proof. split; reflexivity. Qed.

(** What [||] does to a setting: a truthy value is used as given; an
    absent one, and a falsy one, give the default. *)
Lemma js_or_spec {A : Type} `{Truthy A} (v : option A) (d : A) :
  (forall x, v = Some x -> truthy x = true -> v <||> d = x)
  /\ (v = None -> v <||> d = d)
  /\ (forall x, v = Some x -> truthy x = false -> v <||> d = d).
Proof.
  unfold js_or. repeat split.
  - by intros x -> ->.
  - by intros ->.
  - by intros x -> ->.
Qed.

(** ** C5: an image that is neither a string nor a binary object *)

(** C5 (the code departs from the specification). For an image
    argument that is a number, [VisionHandler.analyze] throws nothing:
    the [if]/[else if] chain has no final [else], [imagePart] stays
    [undefined], and the call goes on to the network. With the default
    client and a service that answers, exactly one request is sent,
    whose parts are [undefined] and the prompt, and the call returns
    the wrapped response. *)
Theorem analyze_number_reaches_the_network :
  VisionHandler.imagePart_of (ImageOther (JsNumber 42%float)) = Return UndefinedPart
  /\ (exists response,
        fst (VisionHandler.analyze default_client (ImageOther (JsNumber 42%float)) None
               GenerationOptions.empty (world_of (flaky_network 0 200 (reply "a cat"))))
        = Return response
        /\ TextResponse.text response = Return "a cat")
  /\ List.map (fun request => body_contents (req_body request))
       (requests
          (trace (snd (VisionHandler.analyze default_client (ImageOther (JsNumber 42%float))
                         None GenerationOptions.empty
                         (world_of (flaky_network 0 200 (reply "a cat")))))))
     = [ Some [ {| role := None;
                   parts := [UndefinedPart; TextPart "Describe this image in detail"] |} ] ].
Proof.
  split; [reflexivity|split; [|reflexivity]].
  eexists. split; reflexivity.
Qed.

(** ** C10: a response without candidates *)

(** C10. For a response body whose [candidates] property is absent or
    an empty array, the wrapper is constructed and its accessors
    return: [text()] the empty string, [safetyRatings()] and
    [candidates()] the empty array. *)
Theorem accessors_without_candidates (rawResponse : RawResponse) :
  candidates rawResponse = None \/ candidates rawResponse = Some [] ->
  exists this,
    TextResponse.constructor (Some rawResponse) = Return this
    /\ TextResponse.text this = Return ""
    /\ TextResponse.safetyRatings this = Return []
    /\ TextResponse.candidates this = [].
Proof.
  intros H. eexists. split; [reflexivity|].
  unfold TextResponse.text, TextResponse.safetyRatings, TextResponse.candidates; simpl.
  by destruct H as [-> | ->].
Qed.

Lemma accessors_without_candidates_witness :
  exists this,
    TextResponse.constructor (Some empty_body) = Return this
    /\ TextResponse.text this = Return ""
    /\ TextResponse.safetyRatings this = Return []
    /\ TextResponse.candidates this = [].
Proof. apply (accessors_without_candidates empty_body). by left. Defined.

(** The read of candidate 0 is never out of bounds, whatever the
    candidates are: [safetyRatings()] always returns, and [text()]
    throws only when candidate 0 exists and has no [content]. *)
Lemma candidate_0_is_guarded (this : TextResponse.t) :
  (exists ratings, TextResponse.safetyRatings this = Return ratings)
  /\ (forall error, TextResponse.text this = Throw error ->
        exists candidate,
          TextResponse._candidates this !! 0%nat = Some candidate
          /\ content candidate = None).
Proof.
  unfold TextResponse.safetyRatings, TextResponse.text.
  destruct (TextResponse._candidates this) as [|candidate rest]; simpl.
  - split; [by eexists|done].
  - split; [by eexists|]. intros error. destruct (content candidate) eqn:Hc; [done|].
    intros _. by exists candidate.
Qed.

(** ** C8: embeddings keep the order of the inputs *)

(** C8. A call of [EmbeddingsHandler.generate] on the sequence of texts
    [l] sends, at every network attempt, a payload whose parts are
    [{text: l[0]}, {text: l[1]}, ...] in this order, one part per text;
    a call on the single string [s] sends the one part [{text: s}], as
    a call on the one-element sequence does.  A response that the call
    returns wraps a body that the service delivered, and [embeddings()]
    gives the [values] of that body's embeddings in the body's order.
    Hence, against a service that embeds positionally with [embed], the
    call returns (for a non-negative [maxRetries]) the vectors
    [embed l[0], embed l[1], ...]: the vector at index i is the
    embedding of the input text at index i; for the single string the
    result is the one vector [embed s]. *)
Theorem embeddings_preserve_input_order this options w (l : list string) (s : string) :
  let model := GenerationOptions.model options <||> "embedding-001" in
  let many := EmbeddingsHandler.generate this (ManyTexts l) options w in
  let one := EmbeddingsHandler.generate this (OneText s) options w in
  (exists evs,
      trace (snd many) = trace w ++ evs
      /\ Forall (fun sent =>
                   req_body sent = EmbedContentBody ("models/" +:+ model) (List.map TextPart l))
           (requests evs))
  /\ (exists evs,
        trace (snd one) = trace w ++ evs
        /\ Forall (fun sent =>
                     req_body sent = EmbedContentBody ("models/" +:+ model) [TextPart s])
             (requests evs))
  /\ one = EmbeddingsHandler.generate this (ManyTexts [s]) options w
  /\ (forall response body,
        fst many = Return response ->
        EmbeddingsResponse.raw response = Some body ->
        exists k sent,
          req_body sent = EmbedContentBody ("models/" +:+ model) (List.map TextPart l)
          /\ succeeds_with (network w k sent) body
          /\ forall es,
               embeddings body = Some es ->
               EmbeddingsResponse.embeddings response = Return (List.map values es))
  /\ (forall embed,
        network w = positional_backend embed ->
        (0 <= GeminiClient.maxRetries this)%Z ->
        (exists response vectors,
            fst many = Return response
            /\ EmbeddingsResponse.embeddings response = Return vectors
            /\ vectors = List.map embed l
            /\ length vectors = length l
            /\ forall i, vectors !! i = embed <$> l !! i)
        /\ (exists response,
              fst one = Return response
              /\ EmbeddingsResponse.embeddings response = Return [embed s])).
Proof.
  intros model many one.
  set (endpoint := ("models/" +:+ model +:+ ":embedContent")).
  assert (Hrun : forall texts,
             EmbeddingsHandler.generate this texts options w
             = (match GeminiClient.request this endpoint
                        (fun _ => EmbeddingsHandler.generate_data texts options) w with
                | (Return response, w') =>
                    (Return (EmbeddingsResponse.constructor response), w')
                | (Throw e, w') => (Throw e, w')
                end)) by done.
  assert (Hsent : forall texts, exists evs,
             trace (snd (EmbeddingsHandler.generate this texts options w)) = trace w ++ evs
             /\ Forall (fun sent =>
                          req_body sent
                          = EmbedContentBody ("models/" +:+ model)
                              (List.map TextPart (EmbeddingsHandler.textArray_of texts)))
                  (requests evs)).
  { intros texts.
    destruct (request_events this endpoint
                (fun _ => EmbeddingsHandler.generate_data texts options) w)
      as (evs & Hw' & Hreqs & _).
    exists evs. split.
    - rewrite Hrun. destruct (GeminiClient.request _ _ _ _) as [[response|e] w'];
        simpl in *; by subst w'.
    - eapply Forall_impl; [exact Hreqs|]. by intros sent <-. }
  assert (Hpos : forall texts embed,
             network w = positional_backend embed ->
             (0 <= GeminiClient.maxRetries this)%Z ->
             exists response,
               fst (EmbeddingsHandler.generate this texts options w) = Return response
               /\ EmbeddingsResponse.embeddings response
                  = Return (List.map embed (EmbeddingsHandler.textArray_of texts))).
  { intros texts embed Hnet Hmax.
    set (data := EmbeddingsHandler.generate_data texts options).
    set (body := {| candidates := None;
                    embeddings := Some (List.map (fun text => {| values := embed text |})
                                          (EmbeddingsHandler.textArray_of texts));
                    models := None; error := None |}).
    assert (Hreq := RequestFacts.request_returns_at_once this endpoint (fun _ => data) w body Hmax).
    cbv zeta in Hreq. rewrite Hrun. fold data. rewrite Hreq.
    - subst body. simpl. eexists. split; [reflexivity|].
      unfold EmbeddingsResponse.embeddings. cbn. by rewrite List.map_map.
    - eexists. split; [|split].
      + rewrite Hnet. unfold positional_backend. simpl.
        rewrite List.map_map. simpl. reflexivity.
      + reflexivity.
      + reflexivity. }
  split; [exact (Hsent (ManyTexts l))|].
  split; [exact (Hsent (OneText s))|].
  split; [reflexivity|].
  split.
  - intros response body. unfold many. rewrite Hrun.
    destruct (GeminiClient.request _ _ _ _) as [[r|e] w'] eqn:Hreq; simpl; [|done].
    intros [= <-]. simpl. intros ->.
    apply (f_equal fst) in Hreq. simpl in Hreq.
    apply request_returns in Hreq as [k Hk].
    eexists k, _. split; [|split; [exact Hk|]]; [reflexivity|].
    intros es Hes. unfold EmbeddingsResponse.embeddings. simpl. by rewrite Hes.
  - intros embed Hnet Hmax. split.
    + destruct (Hpos (ManyTexts l) embed Hnet Hmax) as (response & Hret & Hvec).
      exists response, (List.map embed l). split; [exact Hret|]. split; [exact Hvec|].
      split; [reflexivity|]. split; [by rewrite length_map|].
      intros i. apply lookup_map.
    + exact (Hpos (OneText s) embed Hnet Hmax).
Qed.

(** Three distinct texts, embedded by a service that tells them apart. *)
Lemma embeddings_preserve_input_order_witness :
  exists response vectors,
    fst (EmbeddingsHandler.generate default_client (ManyTexts ["a"; "b"; "c"])
           GenerationOptions.empty (world_of (positional_backend text_code)))
    = Return response
    /\ EmbeddingsResponse.embeddings response = Return vectors
    /\ vectors = [[1%float]; [2%float]; [3%float]].
Proof.
  destruct (proj1 (proj2 (proj2 (proj2 (proj2
             (embeddings_preserve_input_order default_client GenerationOptions.empty
                (world_of (positional_backend text_code)) ["a"; "b"; "c"] "a"))))
             text_code eq_refl ltac:(simpl; lia)))
    as (response & vectors & Hret & Hvec & Heq & _).
  exists response, vectors. split; [exact Hret|]. split; [exact Hvec|]. exact Heq.
Defined.

(** ** The chat session *)

Module ChatFacts.
Import ChatSession.

Lemma send_unfold this message options w :
  send this message options w =
  let contents := contents_loc this message (heap w) in
  let w3 := set_heap (heap_at_request this message (heap w)) w in
  match GeminiClient.request (client this)
          ("models/" +:+ model this +:+ ":generateContent")
          (send_data contents options) w3 with
  | (Return response, w4) =>
      match TextResponse.constructor response with
      | Return textResponse =>
          match TextResponse.text textResponse with
          | Return text =>
              (Return textResponse,
               set_heap (alter (fun a => a ++ [model_turn text]) (messages this) (heap w4)) w4)
          | Throw e => (Throw e, w4)
          end
      | Throw e => (Throw e, w4)
      end
  | (Throw e, w4) => (Throw e, w4)
  end.
Proof.
  unfold send, heap_at_request, contents_loc, bind, array_push, array_spread, array_read,
    array_new, array_unshift, bind, ret, lift, set_heap. simpl.
  destruct (truthy (systemPrompt this)); simpl;
    by destruct (GeminiClient.request _ _ _ _) as [[[response|]|e] w4].
Qed.

(** The arrays when [send] reaches the network: the turn log holds the
    old log and the user turn; the copy is another array, which holds
    the content sequence of the call. *)
Lemma heap_at_request_lookup this message h log :
  h !! messages this = Some log ->
  contents_loc this message h <> messages this
  /\ heap_at_request this message h !! messages this = Some (log ++ [user_turn message])
  /\ heap_at_request this message h !!! contents_loc this message h
     = send_contents this log message.
Proof.
  intros Hlog. unfold heap_at_request, contents_loc, send_contents.
  set (h1 := alter _ (messages this) h).
  assert (H1 : h1 !! messages this = Some (log ++ [user_turn message])).
  { subst h1. by rewrite lookup_alter_eq, Hlog. }
  assert (Hfresh : fresh (dom h1) <> messages this).
  { intros Heq. apply (is_fresh (dom h1)). rewrite Heq. by apply elem_of_dom_2 in H1. }
  split; [done|]. cbv zeta.
  rewrite (lookup_total_correct _ _ _ H1).
  destruct (truthy (systemPrompt this)).
  - split.
    + by rewrite lookup_alter_ne, lookup_insert_ne.
    + apply lookup_total_correct. by rewrite lookup_alter_eq, lookup_insert_eq.
  - split.
    + by rewrite lookup_insert_ne.
    + apply lookup_total_correct. by rewrite lookup_insert_eq.
Qed.

(** One [send] on a session whose turn log is [log]. *)
Lemma send_effect this message options w log :
  heap w !! messages this = Some log ->
  exists evs,
    trace (snd (send this message options w)) = trace w ++ evs
    /\ network (snd (send this message options w)) = network w
    /\ Forall (fun request =>
                 req_body request
                 = GenerateContentBody (send_contents this log message)
                     (send_config options) None)
         (requests evs)
    /\ ((0 <= GeminiClient.maxRetries (client this))%Z -> requests evs <> [])
    /\ match fst (send this message options w) with
       | Return textResponse =>
           exists text,
             TextResponse.text textResponse = Return text
             /\ heap (snd (send this message options w)) !! messages this
                = Some (log ++ [user_turn message; model_turn text])
             /\ delivered (network w) (TextResponse.raw textResponse)
       | Throw _ =>
           heap (snd (send this message options w)) !! messages this
           = Some (log ++ [user_turn message])
       end.
Proof.
  intros Hlog. rewrite send_unfold. cbv zeta.
  destruct (heap_at_request_lookup this message (heap w) log Hlog) as (Hne & Hm & Hc).
  set (w3 := set_heap _ w).
  set (endpoint := "models/" +:+ model this +:+ ":generateContent").
  set (data := send_data _ options).
  destruct (request_events (client this) endpoint data w3) as (evs & Hw4 & Hreqs & _).
  pose proof (request_returns (client this) endpoint data w3) as Hret.
  pose proof (request_attempts (client this) endpoint data w3) as Hatt.
  cbv zeta in Hreqs.
  assert (Hbody : req_body (GeminiClient.request_of (client this)
                              (GeminiClient.url_of (client this) endpoint) data w3)
                  = GenerateContentBody (send_contents this log message)
                      (send_config options) None).
  { subst data w3. simpl. unfold send_data. by rewrite Hc. }
  destruct (GeminiClient.request _ _ _ _) as [[response|e] w4]; simpl in Hw4, Hret, Hatt;
    subst w4; exists evs.
  all: assert (Hsome : (0 <= GeminiClient.maxRetries (client this))%Z -> requests evs <> []);
    [ intros Hmax Hnil; specialize (Hatt Hmax); simpl in Hatt;
      rewrite fetch_count_app in Hatt; unfold fetch_count at 3 in Hatt;
      rewrite Hnil in Hatt; simpl in Hatt; lia | ].
  2:{ simpl. repeat split; try done. eapply Forall_impl; [exact Hreqs|]. by intros ? <-. }
  assert (Hfor : Forall (fun request => req_body request
                   = GenerateContentBody (send_contents this log message)
                       (send_config options) None) (requests evs)).
  { eapply Forall_impl; [exact Hreqs|]. by intros ? <-. }
  destruct response as [body|]; simpl.
  2:{ repeat split; done. }
  destruct (TextResponse.text _) as [text|e] eqn:Htext; simpl.
  2:{ repeat split; done. }
  repeat split; try done.
  exists text. split; [done|]. split.
  - rewrite lookup_alter_eq, Hm. simpl. by rewrite <- app_assoc.
  - destruct (Hret body eq_refl) as (k & response & Hnet & Hok & Hjson).
    eexists k, _, response. split; [exact Hnet|by split].
Qed.

Lemma turns_of_calls_not_system calls : forall results,
  Forall not_system (turns_of_calls calls results).
Proof.
  induction calls as [|[message options] calls IH]; intros [|result results]; simpl;
    try by constructor.
  constructor; [done|]. apply Forall_app. split; [|apply IH].
  destruct result as [textResponse|e]; [|by constructor].
  destruct (TextResponse.text textResponse); by repeat constructor.
Qed.

(** A sequence of calls on a session whose turn log is [log]. *)
Lemma send_all_effect this calls : forall w log,
  heap w !! messages this = Some log ->
  length (fst (send_all this calls w)) = length calls
  /\ network (snd (send_all this calls w)) = network w
  /\ heap (snd (send_all this calls w)) !! messages this
     = Some (log ++ turns_of_calls calls (fst (send_all this calls w)))
  /\ Forall (returned_from (network w)) (fst (send_all this calls w)).
Proof.
  induction calls as [|[message options] calls IH]; intros w log Hlog; simpl.
  - by rewrite app_nil_r.
  - destruct (send_effect this message options w log Hlog) as (evs & _ & Hnet & _ & _ & Hsend).
    destruct (send this message options w) as [result w1] eqn:Hrun. simpl in Hnet, Hsend.
    assert (Hlog1 : heap w1 !! messages this = Some (log ++ turns_of_call message result)
                    /\ returned_from (network w) result).
    { destruct result as [textResponse|e]; simpl.
      - destruct Hsend as (text & Htext & Hheap & Hdel).
        unfold turns_of_call. rewrite Htext. eauto.
      - done. }
    destruct Hlog1 as [Hlog1 Hres].
    destruct (IH w1 _ Hlog1) as (Hlen & Hnet' & Hheap & Hall).
    destruct (send_all this calls w1) as [results w2]. simpl in *.
    split; [by rewrite Hlen|]. split; [congruence|]. split.
    + by rewrite Hheap, <- app_assoc.
    + constructor; [done|]. by rewrite <- Hnet.
Qed.

End ChatFacts.

(** ** C2: the turn log follows the calls *)

(** *** Retried and final failures *)

Lemma retryable_is_not_abort error :
  isRetryableError error = true -> String.eqb (error_name error) "AbortError" = false.
Proof.
  destruct error as [message code|name message]; simpl; [done|].
  rewrite orb_true_iff, !String.eqb_eq. by intros [-> | ->].
Qed.

Lemma transport_failure_retried outcome :
  transport_failure outcome -> retried_failure outcome.
Proof.
  intros (name & message & -> & Hname). exists (OtherError name message).
  split; [done|]. simpl. by destruct Hname as [-> | ->].
Qed.

Lemma service_error_retried outcome :
  retryable_service_error outcome -> retried_failure outcome.
Proof.
  intros H. destruct (RequestFacts.settle_retryable _ H) as (message & code & Hs & Hr).
  by exists (GeminiError message code).
Qed.

(** The loop, entered with [retries], when the next [n] attempts throw
    retryable errors of any kind and the one after succeeds. *)
Lemma request_loop_backoff_any n : forall fuel this url data retries w body,
  (retries + Z.of_nat n <= GeminiClient.maxRetries this)%Z ->
  (n < fuel)%nat ->
  (forall i, (i < n)%nat ->
     retried_failure
       (network w (fetch_count (trace w) + i)%nat (GeminiClient.request_of this url data w))) ->
  succeeds_with
    (network w (fetch_count (trace w) + n)%nat (GeminiClient.request_of this url data w))
    body ->
  GeminiClient.request_loop fuel this url data retries w
  = Some (Return (Some body),
          log_events (backoff_events (GeminiClient.request_of this url data w) n retries) w).
Proof.
  induction n as [|n IH]; intros fuel this url data retries w body Hmax Hfuel Hfail Hok;
    (destruct fuel as [|fuel]; [lia|]); rewrite RequestFacts.request_loop_step;
    (destruct (Z.leb_spec retries (GeminiClient.maxRetries this)); [|lia]); cbv zeta.
  - rewrite Nat.add_0_r in Hok. by rewrite (RequestFacts.settle_succeeds _ _ Hok).
  - destruct (Hfail 0%nat ltac:(lia)) as (error & Hsettle & Hretry).
    rewrite Nat.add_0_r in Hsettle.
    rewrite Hsettle, (retryable_is_not_abort _ Hretry), Hretry.
    destruct (Z.gtb_spec (retries + 1) (GeminiClient.maxRetries this)); [lia|].
    simpl orb. cbv iota.
    set (w1 := log_events _ w).
    assert (Hreq : GeminiClient.request_of this url data w1
                   = GeminiClient.request_of this url data w) by done.
    assert (Hcount : fetch_count (trace w1) = S (fetch_count (trace w))).
    { subst w1. simpl. rewrite fetch_count_app. unfold fetch_count. simpl. lia. }
    rewrite (IH fuel this url data (retries + 1)%Z w1 body).
    + rewrite Hreq. subst w1. by rewrite log_events_app.
    + lia.
    + lia.
    + intros i Hi. rewrite Hreq, Hcount.
      replace (S (fetch_count (trace w)) + i)%nat
        with (fetch_count (trace w) + S i)%nat by lia.
      apply Hfail. lia.
    + rewrite Hreq, Hcount.
      by replace (S (fetch_count (trace w)) + n)%nat
        with (fetch_count (trace w) + S n)%nat by lia.
Qed.

Lemma retryable_outcome_retried outcome :
  retryable_outcome outcome -> retried_failure outcome.
Proof.
  intros [H|[H|(response & message & ->)]].
  - by apply transport_failure_retried.
  - by apply service_error_retried.
  - by exists (OtherError "TypeError" message).
Qed.

Lemma final_outcome_stops outcome :
  final_outcome outcome ->
  exists error,
    GeminiClient.settle outcome = Throw error
    /\ (String.eqb (error_name error) "AbortError" = true
        \/ isRetryableError error = false).
Proof.
  intros [->|[(name & message & -> & Hn1 & Hn2)|[(response & -> & Hjson)
          |(response & -> & Hok & [body Hbody] & Hstatus)]]].
  - eexists. split; [reflexivity|]. by left.
  - eexists. split; [reflexivity|]. right. simpl.
    apply String.eqb_neq in Hn1, Hn2. by rewrite Hn1, Hn2.
  - exists (OtherError "SyntaxError" "Unexpected token"). split; [|by right].
    simpl. rewrite Hjson. by destruct (ok response).
  - eexists. simpl. rewrite Hok, Hbody. simpl. split; [reflexivity|]. right.
    cbn [isRetryableError]. apply not_true_is_false. intros Hin. apply Hstatus.
    apply existsb_exists in Hin as (code & Hin & Heq).
    apply Z.eqb_eq in Heq. by subst code.
Qed.

(** The loop, entered with [retries], when the next [n] attempts throw
    retryable errors and the one after throws an error that ends the
    call, or a retryable one that spends the budget. *)
Lemma request_loop_stops n : forall fuel this url data retries w,
  (retries + Z.of_nat n <= GeminiClient.maxRetries this)%Z ->
  (n < fuel)%nat ->
  (forall i, (i < n)%nat ->
     retried_failure
       (network w (fetch_count (trace w) + i)%nat (GeminiClient.request_of this url data w))) ->
  (exists error,
     GeminiClient.settle
       (network w (fetch_count (trace w) + n)%nat (GeminiClient.request_of this url data w))
     = Throw error
     /\ (String.eqb (error_name error) "AbortError" = true
         \/ isRetryableError error = false
         \/ (retries + Z.of_nat n = GeminiClient.maxRetries this)%Z)) ->
  exists thrown,
    GeminiClient.request_loop fuel this url data retries w
    = Some (Throw thrown,
            log_events (backoff_events (GeminiClient.request_of this url data w) n retries) w).
Proof.
  induction n as [|n IH]; intros fuel this url data retries w Hmax Hfuel Hfail Hlast;
    (destruct fuel as [|fuel]; [lia|]); rewrite RequestFacts.request_loop_step;
    (destruct (Z.leb_spec retries (GeminiClient.maxRetries this)); [|lia]); cbv zeta.
  - destruct Hlast as (error & Hsettle & Hstop). rewrite Nat.add_0_r in Hsettle.
    rewrite Hsettle.
    destruct (String.eqb (error_name error) "AbortError") eqn:Habort; [by eexists|].
    destruct Hstop as [Hstop|[Hstop|Hstop]]; [done| |].
    + rewrite Hstop. rewrite orb_true_r. by eexists.
    + destruct (Z.gtb_spec (retries + 1) (GeminiClient.maxRetries this)); [|lia].
      simpl. by eexists.
  - destruct (Hfail 0%nat ltac:(lia)) as (error & Hsettle & Hretry).
    rewrite Nat.add_0_r in Hsettle.
    rewrite Hsettle, (retryable_is_not_abort _ Hretry), Hretry.
    destruct (Z.gtb_spec (retries + 1) (GeminiClient.maxRetries this)); [lia|].
    simpl orb. cbv iota.
    set (w1 := log_events _ w).
    assert (Hreq : GeminiClient.request_of this url data w1
                   = GeminiClient.request_of this url data w) by done.
    assert (Hcount : fetch_count (trace w1) = S (fetch_count (trace w))).
    { subst w1. simpl. rewrite fetch_count_app. unfold fetch_count. simpl. lia. }
    destruct (IH fuel this url data (retries + 1)%Z w1) as (thrown & Hloop).
    + lia.
    + lia.
    + intros i Hi. rewrite Hreq, Hcount.
      replace (S (fetch_count (trace w)) + i)%nat
        with (fetch_count (trace w) + S i)%nat by lia.
      apply Hfail. lia.
    + destruct Hlast as (error' & Hsettle' & Hstop). exists error'.
      rewrite Hreq, Hcount.
      replace (S (fetch_count (trace w)) + n)%nat
        with (fetch_count (trace w) + S n)%nat by lia.
      split; [done|]. destruct Hstop as [Hstop|[Hstop|Hstop]]; [by left|by right; left|].
      right; right. lia.
    + exists thrown. rewrite Hloop, Hreq. subst w1. by rewrite log_events_app.
Qed.

Lemma fetch_count_backoff_events sent n : forall retries,
  fetch_count (backoff_events sent n retries) = S n.
Proof.
  induction n as [|n IH]; intros retries; [done|].
  cbn [backoff_events]. change (fetch_count (EvFetch sent :: EvSleep ?d :: ?l))
    with (S (fetch_count l)). by rewrite IH.
Qed.

(** [text()] on the wrapper of a body gives the text that the body
    carries, and throws when it carries none. *)
Lemma text_of_body body :
  exists textResponse,
    TextResponse.constructor (Some body) = Return textResponse
    /\ TextResponse.raw textResponse = body
    /\ match body_text body with
       | Some text => TextResponse.text textResponse = Return text
       | None => exists error, TextResponse.text textResponse = Throw error
       end.
Proof.
  eexists. split; [reflexivity|]. split; [reflexivity|].
  unfold body_text, TextResponse.text. simpl.
  destruct (candidates body) as [[|candidate rest]|]; simpl; [done| |done].
  destruct (content candidate) as [c|]; [|by eexists].
  unfold TextResponse.join_texts. do 2 f_equal.
  destruct (content_parts c) as [ps|]; [|done]. simpl.
  apply List.map_ext. intros [[[|a text]|]]; reflexivity.
Qed.

(** One [send], on a session whose turn log is [log], against a service
    that treats its request as the call [c] says. *)
Lemma send_follows this c w log :
  let budget := GeminiClient.maxRetries (ChatSession.client this) in
  heap w !! ChatSession.messages this = Some log ->
  call_follows (network w) (chat_request this log (call_message c) (call_options c))
    budget (fetch_count (trace w)) c ->
  heap (snd (ChatSession.send this (call_message c) (call_options c) w))
    !! ChatSession.messages this
  = Some (log ++ call_turns c)
  /\ network (snd (ChatSession.send this (call_message c) (call_options c) w)) = network w
  /\ fetch_count (trace (snd (ChatSession.send this (call_message c) (call_options c) w)))
     = (fetch_count (trace w) + call_attempts budget c)%nat
  /\ call_result c (fst (ChatSession.send this (call_message c) (call_options c) w)).
Proof.
  intros budget Hlog Hcall. rewrite ChatFacts.send_unfold. cbv zeta.
  destruct (ChatFacts.heap_at_request_lookup this (call_message c) (heap w) log Hlog)
    as (Hne & Hm & Hc).
  set (w3 := set_heap _ w).
  set (endpoint := "models/" +:+ ChatSession.model this +:+ ":generateContent").
  set (data := ChatSession.send_data _ (call_options c)).
  set (sent := chat_request this log (call_message c) (call_options c)) in Hcall.
  assert (Hsent : GeminiClient.request_of (ChatSession.client this)
                    (GeminiClient.url_of (ChatSession.client this) endpoint) data w3
                  = sent).
  { subst data w3 sent. unfold GeminiClient.request_of, chat_request. simpl.
    unfold ChatSession.send_data. rewrite Hc. reflexivity. }
  unfold call_follows, call_attempts, call_result, call_turns in *. fold budget in Hcall.
  unfold GeminiClient.request.
  destruct (Z.ltb_spec budget 0) as [Hneg|Hpos].
  - assert (Hfuel : GeminiClient.fuel_from (ChatSession.client this) 0 = 0%nat).
    { unfold GeminiClient.fuel_from. fold budget. lia. }
    rewrite Hfuel. simpl GeminiClient.request_loop. fold budget.
    destruct (Z.leb_spec 0 budget); [lia|]. simpl.
    rewrite Hcall. rewrite Nat.add_0_r. repeat split; try done. by eexists.
  - destruct Hcall as (Hn & Hretry & Hend).
    assert (Hfuel : (call_retries c < GeminiClient.fuel_from (ChatSession.client this) 0)%nat).
    { unfold GeminiClient.fuel_from. fold budget. lia. }
    assert (Hfail : forall i, (i < call_retries c)%nat ->
              retried_failure
                (network w3 (fetch_count (trace w3) + i)%nat
                   (GeminiClient.request_of (ChatSession.client this)
                      (GeminiClient.url_of (ChatSession.client this) endpoint) data w3))).
    { intros i Hi. rewrite Hsent. apply retryable_outcome_retried. by apply Hretry. }
    destruct (call_ending c) as [body|].
    + rewrite (request_loop_backoff_any (call_retries c) _ _ _ _ 0%Z w3 body);
        [|fold budget; lia|done|done|by rewrite Hsent].
      destruct (text_of_body body) as (textResponse & -> & Hraw & Htext).
      destruct (body_text body) as [text|].
      * rewrite Htext. simpl. rewrite lookup_alter_eq, Hm. simpl.
        rewrite <- app_assoc. split; [done|]. split; [done|].
        rewrite fetch_count_app, fetch_count_backoff_events. split; [done|].
        by exists textResponse.
      * destruct Htext as [error ->]. simpl. split; [done|]. split; [done|].
        rewrite fetch_count_app, fetch_count_backoff_events. split; [done|]. by eexists.
    + destruct (request_loop_stops (call_retries c)
                  (GeminiClient.fuel_from (ChatSession.client this) 0)
                  (ChatSession.client this)
                  (GeminiClient.url_of (ChatSession.client this) endpoint) data 0%Z w3)
        as (thrown & ->); [fold budget; lia|done|done| |].
      * rewrite Hsent. destruct Hend as [Hfinal|[Hlast Heq]].
        -- destruct (final_outcome_stops _ Hfinal) as (error & Hs & [Ha|Hr]);
             exists error; split; auto.
        -- destruct (retryable_outcome_retried _ Hlast) as (error & Hs & _).
           exists error. split; [done|]. right; right. fold budget. lia.
      * simpl. split; [done|]. split; [done|].
        rewrite fetch_count_app, fetch_count_backoff_events. split; [done|]. by eexists.
Qed.

(** A sequence of calls on a session whose turn log is [log]. *)
Lemma send_all_follows this calls : forall w log,
  heap w !! ChatSession.messages this = Some log ->
  network_follows this (network w) (fetch_count (trace w)) log calls ->
  heap (snd (ChatSession.send_all this (sends_of calls) w)) !! ChatSession.messages this
  = Some (log ++ flat_map call_turns calls)
  /\ Forall2 call_result calls (fst (ChatSession.send_all this (sends_of calls) w)).
Proof.
  induction calls as [|c calls IH]; intros w log Hlog Hnet.
  - simpl. rewrite app_nil_r. split; [done|constructor].
  - destruct Hnet as [Hcall Hrest].
    destruct (send_follows this c w log Hlog Hcall) as (Hheap & Hnet & Hcount & Hres).
    cbn [sends_of List.map ChatSession.send_all flat_map].
    destruct (ChatSession.send this (call_message c) (call_options c) w) as [result w1].
    simpl in Hheap, Hnet, Hcount, Hres.
    rewrite <- Hnet, <- Hcount in Hrest.
    destruct (IH w1 _ Hheap Hrest) as [Hlog' Hall]. fold (sends_of calls).
    destruct (ChatSession.send_all this (sends_of calls) w1) as [results w2].
    simpl in *. split.
    + by rewrite Hlog', <- app_assoc.
    + by constructor.
Qed.

(** The two sample services treat the two sample calls as described. *)
Lemma two_answered_calls_follow :
  network_follows sample_session (flaky_network 1 503 (reply "hello")) 0 []
    two_answered_calls.
Proof.
  simpl. unfold call_follows. simpl.
  repeat split; try lia; try (intros i Hi; lia); try (by eexists).
  intros i Hi. right; left. assert (i = 0%nat) as -> by lia.
  eexists. split; [reflexivity|]. split; [by eexists|]. simpl. tauto.
Qed.

Lemma second_call_refused_follows :
  network_follows sample_session one_reply_network 0 [] second_call_refused.
Proof.
  simpl. unfold call_follows. simpl.
  repeat split; try lia; try (intros i Hi; lia); try (by eexists).
  left. right; right; right. eexists. split; [reflexivity|]. split; [reflexivity|].
  split; [by eexists|]. simpl. intros H. decompose [or] H; try discriminate; done.
Qed.

(** C2. On a session whose turn log is empty, take any sequence of
    [send] calls and any service, and let [calls] say how the service
    treats the request of each call from the attempt at which the call
    starts: which attempts fail and are retried, and whether the
    request is answered in the end. Then the log after the calls is,
    call by call and in call order, the turn
    [{role: "user", parts: [{text: message}]}] of the call followed by
    the turn [{role: "model", parts: [{text}]}] exactly when the
    request of the call was answered with a success status and a body
    that carries the text; the caller gets the wrapped body from those
    calls and an error from the others. So two answered calls leave the
    four entries user, model, user, model; and when the request of the
    second call is refused, the log is left with three entries, the
    last being the unanswered user turn. *)
Theorem turn_log_reflects_call_order this (calls : list Call) w :
  heap w !! ChatSession.messages this = Some [] ->
  network_follows this (network w) (fetch_count (trace w)) [] calls ->
  let results := fst (ChatSession.send_all this (sends_of calls) w) in
  let w' := snd (ChatSession.send_all this (sends_of calls) w) in
  ChatSession.history this w' = flat_map call_turns calls
  /\ Forall2 call_result calls results
  /\ (forall m1 o1 n1 b1 t1 m2 o2 n2 b2 t2,
        calls = [ {| call_message := m1; call_options := o1; call_retries := n1;
                     call_ending := Answered b1 |};
                  {| call_message := m2; call_options := o2; call_retries := n2;
                     call_ending := Answered b2 |} ] ->
        body_text b1 = Some t1 -> body_text b2 = Some t2 ->
        ChatSession.history this w'
        = [ {| role := Some "user"; parts := [TextPart m1] |};
            {| role := Some "model"; parts := [TextPart t1] |};
            {| role := Some "user"; parts := [TextPart m2] |};
            {| role := Some "model"; parts := [TextPart t2] |} ])
  /\ (forall m1 o1 n1 b1 t1 m2 o2 n2,
        calls = [ {| call_message := m1; call_options := o1; call_retries := n1;
                     call_ending := Answered b1 |};
                  {| call_message := m2; call_options := o2; call_retries := n2;
                     call_ending := Refused |} ] ->
        body_text b1 = Some t1 ->
        ChatSession.history this w'
        = [ {| role := Some "user"; parts := [TextPart m1] |};
            {| role := Some "model"; parts := [TextPart t1] |};
            {| role := Some "user"; parts := [TextPart m2] |} ]).
Proof.
  intros Hlog Hnet results w'.
  destruct (send_all_follows this calls w [] Hlog Hnet) as [Hheap Hall].
  fold results w' in Hheap, Hall. simpl in Hheap.
  assert (Hhist : ChatSession.history this w' = flat_map call_turns calls).
  { unfold ChatSession.history. by apply lookup_total_correct. }
  split; [done|]. split; [done|]. rewrite Hhist. split.
  - intros m1 o1 n1 b1 t1 m2 o2 n2 b2 t2 -> H1 H2.
    simpl. unfold call_turns. simpl. by rewrite H1, H2.
  - intros m1 o1 n1 b1 t1 m2 o2 n2 -> H1.
    simpl. unfold call_turns. simpl. by rewrite H1.
Qed.

(** Against a service that fails once with status 503 and then replies
    "hello", two calls leave four entries; against one that replies
    once and then answers with status 400, three. *)
Lemma turn_log_reflects_call_order_witness :
  ChatSession.history sample_session
    (snd (ChatSession.send_all sample_session two_calls
            (session_world (flaky_network 1 503 (reply "hello")))))
  = [ {| role := Some "user"; parts := [TextPart "hi"] |};
      {| role := Some "model"; parts := [TextPart "hello"] |};
      {| role := Some "user"; parts := [TextPart "again"] |};
      {| role := Some "model"; parts := [TextPart "hello"] |} ]
  /\ ChatSession.history sample_session
       (snd (ChatSession.send_all sample_session two_calls
               (session_world one_reply_network)))
     = [ {| role := Some "user"; parts := [TextPart "hi"] |};
         {| role := Some "model"; parts := [TextPart "hello"] |};
         {| role := Some "user"; parts := [TextPart "again"] |} ].
Proof.
  split.
  - apply (proj1 (turn_log_reflects_call_order sample_session two_answered_calls
                    (session_world (flaky_network 1 503 (reply "hello")))
                    eq_refl two_answered_calls_follow)).
  - apply (proj1 (turn_log_reflects_call_order sample_session second_call_refused
                    (session_world one_reply_network)
                    eq_refl second_call_refused_follows)).
Defined.

(** The sample session is the one that the constructor builds. *)
Example sample_session_constructed net :
  ChatSession.constructor default_client
    {| ChatOptions.model := None; ChatOptions.systemPrompt := Some "Be brief." |}
    (world_of net)
  = (Return sample_session, session_world net).
Proof. reflexivity. Qed.

(** Every outcome of an attempt is of one of the three kinds. *)
Lemma outcome_classified outcome :
  retryable_outcome outcome
  \/ final_outcome outcome
  \/ exists body, succeeds_with outcome body.
Proof.
  destruct outcome as [|name message|response|response message].
  - right; left. by left.
  - destruct (decide (name = "TypeError")) as [->|Hn1].
    { left; left. eexists _, _. split; [reflexivity|by left]. }
    destruct (decide (name = "NetworkError")) as [->|Hn2].
    { left; left. eexists _, _. split; [reflexivity|by right]. }
    right; left. right; left. by eexists _, _.
  - destruct (json response) as [body|] eqn:Hjson.
    2:{ right; left. right; right; left. by eexists. }
    destruct (ok response) eqn:Hok.
    { right; right. exists body, response. by split. }
    destruct (decide (In (status response) [429; 500; 502; 503; 504]%Z)) as [Hin|Hin].
    + left; right; left. exists response. split; [done|]. split; [by exists body|done].
    + right; left. right; right; right. exists response.
      split; [done|]. split; [done|]. split; [by exists body|done].
  - left; right; right. by eexists _, _.
Qed.

(** Whatever the service does, some description fits it: each request
    has a number of retried attempts and an ending. *)
Lemma call_follows_exists net sent budget first message options :
  exists c,
    call_message c = message /\ call_options c = options
    /\ call_follows net sent budget first c.
Proof.
  unfold call_follows. destruct (Z.ltb_spec budget 0) as [Hneg|Hpos].
  { by exists {| call_message := message; call_options := options;
                 call_retries := 0; call_ending := Refused |}. }
  assert (Hsearch : forall d j,
            (j + d = Z.to_nat budget)%nat ->
            (forall i, (i < j)%nat -> retryable_outcome (net (first + i)%nat sent)) ->
            exists n ending,
              (Z.of_nat n <= budget)%Z
              /\ (forall i, (i < n)%nat -> retryable_outcome (net (first + i)%nat sent))
              /\ match ending with
                 | Answered body => succeeds_with (net (first + n)%nat sent) body
                 | Refused =>
                     final_outcome (net (first + n)%nat sent)
                     \/ (retryable_outcome (net (first + n)%nat sent)
                         /\ Z.of_nat n = budget)
                 end).
  { induction d as [|d IH]; intros j Hj Hbefore;
      destruct (outcome_classified (net (first + j)%nat sent)) as [Hr|[Hf|[body Hs]]].
    - exists j, Refused. split; [lia|]. split; [done|]. right. split; [done|lia].
    - exists j, Refused. split; [lia|]. split; [done|]. by left.
    - exists j, (Answered body). split; [lia|]. by split.
    - apply (IH (S j)); [lia|]. intros i Hi.
      destruct (decide (i = j)) as [->|Hne]; [done|]. apply Hbefore. lia.
    - exists j, Refused. split; [lia|]. split; [done|]. by left.
    - exists j, (Answered body). split; [lia|]. by split. }
  destruct (Hsearch (Z.to_nat budget) 0%nat) as (n & ending & Hn & Hretry & Hend);
    [lia|intros i Hi; lia|].
  by exists {| call_message := message; call_options := options;
               call_retries := n; call_ending := ending |}.
Qed.

(** So the description of the calls by [network_follows] leaves out no
    execution: for every service and every sequence of messages there
    is a sequence of calls that the service follows. *)
Lemma network_follows_exists this net (sends : list (string * GenerationOptions.t)) :
  forall first log,
    exists calls, sends_of calls = sends /\ network_follows this net first log calls.
Proof.
  induction sends as [|[message options] sends IH]; intros first log.
  - by exists [].
  - destruct (call_follows_exists net (chat_request this log message options)
                (GeminiClient.maxRetries (ChatSession.client this)) first message options)
      as (c & Hm & Ho & Hcall).
    destruct (IH (first + call_attempts
                             (GeminiClient.maxRetries (ChatSession.client this)) c)%nat
                (log ++ call_turns c)) as (calls & Hsends & Hrest).
    exists (c :: calls). split.
    + simpl. by rewrite Hm, Ho, Hsends.
    + simpl. rewrite Hm, Ho. by split.
Qed.

(** ** C9: the system turn is built per call and never stored *)

(** C9. On a session with a system prompt set, whose turn log is [log]
    and holds no turn of role "system": every request that a [send]
    puts on the network (at least one, for a non-negative
    [maxRetries]) carries as contents the turn
    [{role: "system", parts: [{text: systemPrompt}]}], followed by the
    whole turn log, which by then ends with the new turn
    [{role: "user", parts: [{text: message}]}]; the turn log itself
    only grows at its end, by that user turn and, when the call
    returns, a turn [{role: "model", parts: [{text}]}]; so it holds no
    turn of role "system" after the call, nor after any sequence of
    calls. *)
Theorem system_turn_is_not_persisted this message options w log calls :
  truthy (ChatSession.systemPrompt this) = true ->
  heap w !! ChatSession.messages this = Some log ->
  Forall (fun turn => role turn <> Some "system") log ->
  let w1 := snd (ChatSession.send this message options w) in
  (exists evs,
     trace w1 = trace w ++ evs
     /\ Forall (fun sent =>
                  body_contents (req_body sent)
                  = Some ({| role := Some "system";
                             parts := [TextPart (ChatSession.systemPrompt this)] |}
                            :: log ++ [{| role := Some "user";
                                          parts := [TextPart message] |}]))
          (requests evs)
     /\ ((0 <= GeminiClient.maxRetries (ChatSession.client this))%Z -> requests evs <> []))
  /\ (exists tail,
        ChatSession.history this w1
        = log ++ {| role := Some "user"; parts := [TextPart message] |} :: tail
        /\ (tail = []
            \/ exists text, tail = [{| role := Some "model"; parts := [TextPart text] |}]))
  /\ Forall (fun turn => role turn <> Some "system") (ChatSession.history this w1)
  /\ Forall (fun turn => role turn <> Some "system")
       (ChatSession.history this (snd (ChatSession.send_all this calls w))).
Proof.
  intros Hprompt Hlog Hclean w1.
  destruct (ChatFacts.send_effect this message options w log Hlog)
    as (evs & Htrace & _ & Hreqs & Hsome & Hsend).
  fold w1 in Htrace, Hsend.
  assert (Htail : exists tail,
            ChatSession.history this w1
            = log ++ {| role := Some "user"; parts := [TextPart message] |} :: tail
            /\ (tail = []
                \/ exists text,
                     tail = [{| role := Some "model"; parts := [TextPart text] |}])).
  { unfold ChatSession.history.
    destruct (fst (ChatSession.send this message options w)) as [textResponse|e].
    - destruct Hsend as (text & _ & Hheap & _).
      exists [ChatSession.model_turn text]. split; [by apply lookup_total_correct|eauto].
    - exists []. split; [by apply lookup_total_correct|eauto]. }
  split; [|split; [done|split]].
  - exists evs. split; [done|]. split; [|done].
    eapply Forall_impl; [exact Hreqs|]. intros sent ->. simpl.
    unfold send_contents. by rewrite Hprompt.
  - destruct Htail as (tail & -> & Htail). apply Forall_app. split; [done|].
    constructor; [done|]. destruct Htail as [->|[text ->]]; by repeat constructor.
  - destruct (ChatFacts.send_all_effect this calls w log Hlog) as (_ & _ & Hheap & _).
    unfold ChatSession.history. rewrite (lookup_total_correct _ _ _ Hheap).
    apply Forall_app. split; [done|]. apply ChatFacts.turns_of_calls_not_system.
Qed.

(** A session whose prompt is "Be brief.": the one request of the call
    opens with the system turn, and the log holds none after two calls. *)
Lemma system_turn_is_not_persisted_witness :
  (exists evs,
     trace (snd (ChatSession.send sample_session "hi" GenerationOptions.empty
                   (session_world one_reply_network)))
     = [] ++ evs
     /\ Forall (fun sent =>
                  body_contents (req_body sent)
                  = Some [{| role := Some "system"; parts := [TextPart "Be brief."] |};
                          {| role := Some "user"; parts := [TextPart "hi"] |}])
          (requests evs)
     /\ requests evs <> [])
  /\ ChatSession.history sample_session
       (snd (ChatSession.send sample_session "hi" GenerationOptions.empty
               (session_world one_reply_network)))
     = [{| role := Some "user"; parts := [TextPart "hi"] |};
        {| role := Some "model"; parts := [TextPart "hello"] |}]
  /\ Forall (fun turn => role turn <> Some "system")
       (ChatSession.history sample_session
          (snd (ChatSession.send_all sample_session two_calls
                  (session_world one_reply_network)))).
Proof.
  destruct (system_turn_is_not_persisted sample_session "hi" GenerationOptions.empty
              (session_world one_reply_network) [] two_calls
              eq_refl eq_refl (Forall_nil_2 _))
    as ((evs & Htrace & Hsent & Hsome) & _ & _ & Hall).
  split; [|split; [reflexivity|exact Hall]].
  exists evs. split; [exact Htrace|]. split; [exact Hsent|].
  apply Hsome. simpl. lia.
Defined.

(** * Further properties *)

(** ** The request executor in every execution *)

(** X1. Transport failures are retried like retryable statuses: when
    each of the first [n] attempts of a [request] ([n] at most
    [maxRetries]) either fails in the transport with a TypeError or
    NetworkError or gets a retryable status, and the next attempt
    succeeds, the call returns the decoded body after exactly [n + 1]
    attempts, with the waits 500 * 2^k before the k-th retry. *)
Theorem request_retries_transport_failures this endpoint data w (n : nat) body :
  let request := GeminiClient.request_of this (GeminiClient.url_of this endpoint) data w in
  let first := fetch_count (trace w) in
  (Z.of_nat n <= GeminiClient.maxRetries this)%Z ->
  (forall i, (i < n)%nat ->
     transport_failure (network w (first + i)%nat request)
     \/ retryable_service_error (network w (first + i)%nat request)) ->
  succeeds_with (network w (first + n)%nat request) body ->
  GeminiClient.request this endpoint data w
  = (Return (Some body), log_events (retry_events request n) w)
  /\ fetch_count (retry_events request n) = (n + 1)%nat
  /\ sleeps (retry_events request n)
     = List.map (fun k => 500 * 2 ^ Z.of_nat k)%Z (seq 1 n).
Proof.
  intros request first Hmax Hfail Hok. split; [|split].
  - unfold GeminiClient.request.
    rewrite (request_loop_backoff_any n _ this _ data 0%Z w body);
      [|lia|unfold GeminiClient.fuel_from; lia| |done].
    + change 0%Z with (Z.of_nat 0). by rewrite RequestFacts.backoff_events_retry.
    + intros i Hi. destruct (Hfail i Hi);
        [by apply transport_failure_retried|by apply service_error_retried].
  - unfold fetch_count. rewrite RequestFacts.requests_retry_events, repeat_length. lia.
  - apply RequestFacts.sleeps_retry_events.
Qed.

Lemma request_retries_transport_failures_witness :
  GeminiClient.request default_client "models/m:generateContent" (fun _ => EmptyBody)
    (world_of dropping_network)
  = (Return (Some (reply "hello")),
     log_events
       (retry_events
          (GeminiClient.request_of default_client
             (GeminiClient.url_of default_client "models/m:generateContent")
             (fun _ => EmptyBody) (world_of dropping_network)) 2)
       (world_of dropping_network)).
Proof.
  apply (request_retries_transport_failures default_client "models/m:generateContent"
           (fun _ => EmptyBody) (world_of dropping_network) 2 (reply "hello")).
  - simpl. lia.
  - intros i Hi. left. exists "TypeError", "Failed to fetch".
    destruct i as [|[|i]]; [| |lia]; (split; [reflexivity|by left]).
  - by eexists.
Defined.

(** The loop, entered with [retries], when every attempt throws a
    retryable error: the error of the last attempt is thrown. *)
Lemma request_loop_gives_up_any n : forall fuel this url data retries w,
  (retries + Z.of_nat n = GeminiClient.maxRetries this)%Z ->
  (n < fuel)%nat ->
  (forall i, (i <= n)%nat ->
     retried_failure
       (network w (fetch_count (trace w) + i)%nat (GeminiClient.request_of this url data w))) ->
  exists error,
    GeminiClient.settle
      (network w (fetch_count (trace w) + n)%nat (GeminiClient.request_of this url data w))
      = Throw error
    /\ GeminiClient.request_loop fuel this url data retries w
       = Some (Throw error,
               log_events
                 (backoff_events (GeminiClient.request_of this url data w) n retries) w).
Proof.
  induction n as [|n IH]; intros fuel this url data retries w Hmax Hfuel Hfail;
    (destruct fuel as [|fuel]; [lia|]); rewrite RequestFacts.request_loop_step;
    (destruct (Z.leb_spec retries (GeminiClient.maxRetries this)); [|lia]); cbv zeta;
    destruct (Hfail 0%nat ltac:(lia)) as (error & Hsettle & Hretry);
    rewrite Nat.add_0_r in Hsettle;
    rewrite Hsettle, (retryable_is_not_abort _ Hretry), Hretry.
  - destruct (Z.gtb_spec (retries + 1) (GeminiClient.maxRetries this)); [|lia].
    simpl orb. cbv iota. exists error. by rewrite Nat.add_0_r.
  - destruct (Z.gtb_spec (retries + 1) (GeminiClient.maxRetries this)); [lia|].
    simpl orb. cbv iota.
    set (w1 := log_events _ w).
    assert (Hreq : GeminiClient.request_of this url data w1
                   = GeminiClient.request_of this url data w) by done.
    assert (Hcount : fetch_count (trace w1) = S (fetch_count (trace w))).
    { subst w1. simpl. rewrite fetch_count_app. unfold fetch_count. simpl. lia. }
    destruct (IH fuel this url data (retries + 1)%Z w1) as (error' & Hlast & Hloop).
    + lia.
    + lia.
    + intros i Hi. rewrite Hreq, Hcount.
      replace (S (fetch_count (trace w)) + i)%nat
        with (fetch_count (trace w) + S i)%nat by lia.
      apply Hfail. lia.
    + exists error'. rewrite Hreq, Hcount in Hlast. split.
      * by replace (fetch_count (trace w) + S n)%nat
          with (S (fetch_count (trace w)) + n)%nat by lia.
      * rewrite Hloop, Hreq. subst w1. by rewrite log_events_app.
Qed.

(** X2. Exhausting the retry budget: when every attempt of a [request]
    throws a retryable error (a transport failure or a retryable
    status), the call makes exactly [maxRetries + 1] attempts, waits
    500 * 2^k before the k-th retry and not after the last attempt, and
    throws the error of the last attempt unchanged. *)
Theorem request_rethrows_last_error this endpoint data w :
  let request := GeminiClient.request_of this (GeminiClient.url_of this endpoint) data w in
  let budget := Z.to_nat (GeminiClient.maxRetries this) in
  (0 <= GeminiClient.maxRetries this)%Z ->
  (forall i, (i <= budget)%nat ->
     retried_failure (network w (fetch_count (trace w) + i)%nat request)) ->
  exists error,
    GeminiClient.settle (network w (fetch_count (trace w) + budget)%nat request) = Throw error
    /\ GeminiClient.request this endpoint data w
       = (Throw error, log_events (retry_events request budget) w)
    /\ fetch_count (retry_events request budget) = (budget + 1)%nat
    /\ sleeps (retry_events request budget)
       = List.map (fun k => 500 * 2 ^ Z.of_nat k)%Z (seq 1 budget).
Proof.
  intros request budget Hmax Hfail. unfold GeminiClient.request.
  destruct (request_loop_gives_up_any budget (GeminiClient.fuel_from this 0) this
              (GeminiClient.url_of this endpoint) data 0%Z w) as (error & Hlast & Hloop).
  - subst budget. lia.
  - unfold GeminiClient.fuel_from. subst budget. lia.
  - done.
  - exists error. rewrite Hloop. split; [done|]. split; [|split].
    + change 0%Z with (Z.of_nat 0). by rewrite RequestFacts.backoff_events_retry.
    + unfold fetch_count. rewrite RequestFacts.requests_retry_events, repeat_length. lia.
    + apply RequestFacts.sleeps_retry_events.
Qed.

Lemma request_rethrows_last_error_witness :
  exists error,
    GeminiClient.settle
      (always_503 (0 + Z.to_nat 3)%nat
         (GeminiClient.request_of default_client
            (GeminiClient.url_of default_client "models/m:generateContent")
            (fun _ => EmptyBody) (world_of always_503))) = Throw error
    /\ GeminiClient.request default_client "models/m:generateContent" (fun _ => EmptyBody)
         (world_of always_503)
       = (Throw error,
          log_events
            (retry_events
               (GeminiClient.request_of default_client
                  (GeminiClient.url_of default_client "models/m:generateContent")
                  (fun _ => EmptyBody) (world_of always_503)) (Z.to_nat 3))
            (world_of always_503))
    /\ fetch_count
         (retry_events
            (GeminiClient.request_of default_client
               (GeminiClient.url_of default_client "models/m:generateContent")
               (fun _ => EmptyBody) (world_of always_503)) (Z.to_nat 3))
       = (Z.to_nat 3 + 1)%nat
    /\ sleeps
         (retry_events
            (GeminiClient.request_of default_client
               (GeminiClient.url_of default_client "models/m:generateContent")
               (fun _ => EmptyBody) (world_of always_503)) (Z.to_nat 3))
       = List.map (fun k => 500 * 2 ^ Z.of_nat k)%Z (seq 1 (Z.to_nat 3)).
Proof.
  apply (request_rethrows_last_error default_client "models/m:generateContent"
           (fun _ => EmptyBody) (world_of always_503)).
  - simpl. lia.
  - intros i _. eexists. split; reflexivity.
Defined.

(** The loop in every execution: either it is not entered, or its
    events are those of some number of retries within the budget. *)
Lemma request_loop_shape fuel this url data : forall retries w c w',
  GeminiClient.request_loop fuel this url data retries w = Some (c, w') ->
  (w' = w /\ c = Return None /\ (GeminiClient.maxRetries this < retries)%Z)
  \/ exists n,
       w' = log_events (backoff_events (GeminiClient.request_of this url data w) n retries) w
       /\ (retries + Z.of_nat n <= GeminiClient.maxRetries this)%Z
       /\ c <> Return None.
Proof.
  induction fuel as [|fuel IH]; intros retries w c w'.
  - simpl. destruct (Z.leb_spec retries (GeminiClient.maxRetries this)); [done|].
    intros [= <- <-]. by left.
  - rewrite RequestFacts.request_loop_step.
    destruct (Z.leb_spec retries (GeminiClient.maxRetries this)); cbv zeta.
    2:{ intros [= <- <-]. by left. }
    assert (Hone : forall c0 : Completion (option RawResponse), c0 <> Return None ->
      exists n, log_events [EvFetch (GeminiClient.request_of this url data w)] w
                = log_events (backoff_events (GeminiClient.request_of this url data w) n retries) w
                /\ (retries + Z.of_nat n <= GeminiClient.maxRetries this)%Z
                /\ c0 <> Return None).
    { intros c0 Hc0. exists 0%nat. split; [done|]. split; [lia|done]. }
    destruct (GeminiClient.settle _) as [body|error].
    { intros [= <- <-]. right. by apply Hone. }
    destruct (String.eqb _ _).
    { intros [= <- <-]. right. by apply Hone. }
    destruct (Z.gtb_spec (retries + 1) (GeminiClient.maxRetries this)); simpl orb.
    { intros [= <- <-]. right. by apply Hone. }
    destruct (negb _).
    { intros [= <- <-]. right. by apply Hone. }
    intros Hloop. apply IH in Hloop as [(_ & _ & Hlt)|(n & -> & Hn & Hc)]; [lia|].
    right. exists (S n). split; [|split; [lia|done]].
    change (GeminiClient.request_of this url data (log_events _ w))
      with (GeminiClient.request_of this url data w).
    by rewrite log_events_app.
Qed.

(** X3. Every execution of [request], whatever the service does: the
    heap and the service are left as they were; with a negative
    [maxRetries] nothing is sent and [undefined] is returned; otherwise
    the events of the call are, for some [n] at most [maxRetries], [n]
    attempts each followed by its wait 500 * 2^k and one last attempt,
    all with the same request. So a call never makes more than
    [maxRetries + 1] attempts and never waits after its last attempt. *)
Theorem request_trace_shape this endpoint data w :
  let request := GeminiClient.request_of this (GeminiClient.url_of this endpoint) data w in
  let run := GeminiClient.request this endpoint data w in
  heap (snd run) = heap w
  /\ network (snd run) = network w
  /\ (((GeminiClient.maxRetries this < 0)%Z /\ run = (Return None, w))
      \/ exists n,
           (Z.of_nat n <= GeminiClient.maxRetries this)%Z
           /\ snd run = log_events (retry_events request n) w
           /\ fetch_count (retry_events request n) = (n + 1)%nat
           /\ sleeps (retry_events request n)
              = List.map (fun k => 500 * 2 ^ Z.of_nat k)%Z (seq 1 n)
           /\ fst run <> Return None).
Proof.
  intros request run. subst run. unfold GeminiClient.request.
  destruct (RequestFacts.request_loop_terminates
              (GeminiClient.fuel_from this 0) this (GeminiClient.url_of this endpoint)
              data 0 w ltac:(lia)) as [[c w'] Hloop].
  rewrite Hloop. simpl.
  apply request_loop_shape in Hloop as [(-> & -> & Hlt)|(n & -> & Hn & Hc)].
  - split; [done|]. split; [done|]. by left.
  - split; [done|]. split; [done|]. right. exists n. split; [lia|].
    change 0%Z with (Z.of_nat 0). rewrite RequestFacts.backoff_events_retry.
    split; [done|]. split; [|split; [apply RequestFacts.sleeps_retry_events|done]].
    unfold fetch_count. rewrite RequestFacts.requests_retry_events, repeat_length. lia.
Qed.

(** X4. A response whose body is not JSON is never retried, whatever
    its status: when the service answers the first attempt with such a
    response (a 503 with an HTML page, say), [request] throws the
    SyntaxError of [response.json()] after that single attempt, without
    waiting. *)
Theorem non_json_body_is_not_retried this endpoint data w response :
  let request := GeminiClient.request_of this (GeminiClient.url_of this endpoint) data w in
  (0 <= GeminiClient.maxRetries this)%Z ->
  network w (fetch_count (trace w)) request = Responds response ->
  json response = None ->
  GeminiClient.request this endpoint data w
  = (Throw (OtherError "SyntaxError" "Unexpected token"), log_events [EvFetch request] w).
Proof.
  intros request Hmax Hnet Hjson. unfold GeminiClient.request.
  assert (Hfuel : GeminiClient.fuel_from this 0 = S (Z.to_nat (GeminiClient.maxRetries this))).
  { unfold GeminiClient.fuel_from. lia. }
  rewrite Hfuel, RequestFacts.request_loop_step.
  destruct (Z.leb_spec 0 (GeminiClient.maxRetries this)); [|lia]. cbv zeta.
  fold request. rewrite Hnet. unfold GeminiClient.settle. rewrite Hjson.
  assert (Hs : (if negb (ok response)
                then Throw (OtherError "SyntaxError" "Unexpected token")
                else Throw (OtherError "SyntaxError" "Unexpected token"))
               = (Throw (OtherError "SyntaxError" "Unexpected token")
                  : Completion RawResponse)) by by destruct (ok response).
  rewrite Hs. simpl error_name.
  change (String.eqb "SyntaxError" "AbortError") with false. cbv iota.
  change (isRetryableError (OtherError "SyntaxError" "Unexpected token")) with false.
  simpl negb. by rewrite orb_true_r.
Qed.

Lemma non_json_body_is_not_retried_witness :
  GeminiClient.request default_client "models/m:generateContent" (fun _ => EmptyBody)
    (world_of html_503)
  = (Throw (OtherError "SyntaxError" "Unexpected token"),
     log_events
       [EvFetch (GeminiClient.request_of default_client
                   (GeminiClient.url_of default_client "models/m:generateContent")
                   (fun _ => EmptyBody) (world_of html_503))]
       (world_of html_503)).
Proof.
  apply (non_json_body_is_not_retried default_client "models/m:generateContent"
           (fun _ => EmptyBody) (world_of html_503)
           {| status := 503; statusText := "Service Unavailable"; json := None |}).
  - simpl. lia.
  - reflexivity.
  - reflexivity.
Defined.

(** X5. A negative retry budget: a client whose [maxRetries] is
    negative never contacts the service. [request] returns [undefined]
    and leaves the world as it was; so [TextHandler.generate] and
    [listModels] throw a TypeError, and [EmbeddingsHandler.generate]
    returns a wrapper whose [embeddings()] throws one. *)
Theorem negative_budget_sends_nothing this w :
  (GeminiClient.maxRetries this < 0)%Z ->
  (forall endpoint data, GeminiClient.request this endpoint data w = (Return None, w))
  /\ (forall prompt options,
        exists message,
          TextHandler.generate this prompt options w = (Throw (TypeError message), w))
  /\ (exists message, GeminiClient.listModels this w = (Throw (TypeError message), w))
  /\ (forall texts options,
        exists response message,
          EmbeddingsHandler.generate this texts options w = (Return response, w)
          /\ EmbeddingsResponse.embeddings response = Throw (TypeError message)).
Proof.
  intros Hneg.
  assert (Hreq : forall endpoint data,
            GeminiClient.request this endpoint data w = (Return None, w)).
  { intros endpoint data. unfold GeminiClient.request, GeminiClient.fuel_from.
    replace (Z.to_nat (GeminiClient.maxRetries this + 1 - 0)) with 0%nat by lia.
    simpl. by destruct (Z.leb_spec 0 (GeminiClient.maxRetries this)); [lia|]. }
  split; [done|]. split; [|split].
  - intros prompt options. eexists.
    unfold TextHandler.generate, bind. by rewrite Hreq.
  - eexists. unfold GeminiClient.listModels, bind. by rewrite Hreq.
  - intros texts options. eexists _, _.
    unfold EmbeddingsHandler.generate, bind. rewrite Hreq. split; reflexivity.
Qed.

Example negative_client_constructed :
  GeminiClient.constructor (Some "KEY")
    {| ClientOptions.model := None;
       ClientOptions.maxRetries := Some (-1)%Z;
       ClientOptions.timeout := None |}
  = Return negative_client.
Proof. reflexivity. Qed.

Lemma negative_budget_sends_nothing_witness :
  exists message,
    TextHandler.generate negative_client (PromptString "hi") GenerationOptions.empty
      (world_of always_503)
    = (Throw (TypeError message), world_of always_503).
Proof.
  apply (negative_budget_sends_nothing negative_client (world_of always_503)).
  simpl. lia.
Defined.

(** ** Handlers: what goes on the wire *)

(** The requests of a call are all equal to the first one. *)
Lemma request_sends this endpoint (payload : Payload) w :
  exists evs,
    snd (GeminiClient.request this endpoint (fun _ => payload) w) = log_events evs w
    /\ Forall (eq {| req_url := GeminiClient.url_of this endpoint;
                     req_body := payload;
                     req_timeout := GeminiClient.timeout this |})
         (requests evs).
Proof.
  destruct (request_events this endpoint (fun _ => payload) w) as (evs & Hw & Hreqs & _).
  by exists evs.
Qed.


(** [TextHandler.generate] in terms of the request executor. *)
Lemma text_generate_effect client prompt options w :
  let run := TextHandler.generate client prompt options w in
  let model := GenerationOptions.model options <||> GeminiClient.model client in
  exists evs,
    snd run = log_events evs w
    /\ Forall (eq {| req_url := GeminiClient.url_of client
                                   ("models/" +:+ model +:+ ":generateContent");
                     req_body := TextHandler.generate_data prompt options;
                     req_timeout := GeminiClient.timeout client |})
         (requests evs)
    /\ match fst run with
       | Return response =>
           exists body,
             response = {| TextResponse.raw := body;
                           TextResponse._candidates := candidates body <||> [] |}
             /\ delivered (network w) body
       | Throw _ => True
       end.
Proof.
  intros run model. subst run. unfold TextHandler.generate, bind, lift. fold model.
  set (endpoint := "models/" +:+ model +:+ ":generateContent").
  set (payload := TextHandler.generate_data prompt options).
  destruct (request_sends client endpoint payload w) as (evs & Hw & Hreqs).
  pose proof (request_returns client endpoint (fun _ => payload) w) as Hret.
  destruct (GeminiClient.request _ _ _ _) as [[[body|]|e] w']; simpl in *; subst w';
    exists evs; (split; [done|]); (split; [done|]); try done.
  exists body. split; [done|].
  destruct (Hret body eq_refl) as (k & r & Hnet & Hok & Hjson).
  by eexists k, _, r.
Qed.

(** X6. [TextHandler.generate] in every execution: each request it
    sends is a POST to [{baseUrl}/models/{model}:generateContent?key={apiKey}],
    where [model] is [options.model] when that is a non-empty string
    and the client's model otherwise, with the client's timeout and the
    payload built from the prompt and options; the heap is untouched;
    and a wrapper it returns holds a body that the service delivered
    with a success status, with [candidates] defaulting to the empty
    list. *)
Theorem text_generate_requests client prompt options w :
  let run := TextHandler.generate client prompt options w in
  let model := GenerationOptions.model options <||> GeminiClient.model client in
  heap (snd run) = heap w
  /\ (exists evs,
        trace (snd run) = trace w ++ evs
        /\ Forall (fun request =>
                     req_url request
                     = GeminiClient.baseUrl client +:+ "/" +:+
                       ("models/" +:+ model +:+ ":generateContent")
                       +:+ "?key=" +:+ GeminiClient.apiKey client
                     /\ req_timeout request = GeminiClient.timeout client
                     /\ req_body request = TextHandler.generate_data prompt options)
             (requests evs))
  /\ (forall response,
        fst run = Return response ->
        delivered (network w) (TextResponse.raw response)
        /\ TextResponse._candidates response
           = candidates (TextResponse.raw response) <||> []).
Proof.
  intros run model.
  destruct (text_generate_effect client prompt options w) as (evs & Hw & Hreqs & Hret).
  fold run model in Hw, Hreqs, Hret. rewrite Hw. split; [done|]. split.
  - exists evs. split; [done|].
    eapply Forall_impl; [exact Hreqs|]. by intros request <-.
  - intros response Hrun. rewrite Hrun in Hret.
    by destruct Hret as (body & -> & Hdel).
Qed.


Lemma append_cancel_l (prefix s1 s2 : string) :
  prefix +:+ s1 = prefix +:+ s2 -> s1 = s2.
Proof.
  induction prefix as [|c prefix IH]; simpl; [done|].
  intros [= H]. by apply IH.
Qed.

(** X8. [CodeHandler.analyze] and [CodeHandler.improve] in every
    execution: each request carries one text part, the fixed
    instruction followed by the code unchanged (so the code can be read
    back from the request), with the settings that the text handler
    builds from the caller's options: the temperature defaults to 0.7
    here, not to the 0.2 of [CodeHandler.generate]. *)
Theorem code_analyze_improve_requests client code options w :
  let sent (run : Completion TextResponse.t * World) (instruction : string) :=
    exists evs,
      trace (snd run) = trace w ++ evs
      /\ Forall (fun request =>
                   body_contents (req_body request)
                   = Some [ {| role := None;
                               parts := [TextPart (instruction +:+ newline +:+ newline
                                                   +:+ code)] |} ]
                   /\ body_config (req_body request)
                      = body_config (TextHandler.generate_data (PromptString "") options))
           (requests evs) in
  sent (CodeHandler.analyze client code options w)
       "Analyze this code and explain what it does:"
  /\ sent (CodeHandler.improve client code options w)
          "Suggest improvements for this code:"
  /\ (forall instruction code',
        instruction +:+ newline +:+ newline +:+ code
        = instruction +:+ newline +:+ newline +:+ code' -> code = code')
  /\ (GenerationOptions.temperature options = None ->
      option_map temperature
        (body_config (TextHandler.generate_data (PromptString "") options))
      = Some 0.7%float).
Proof.
  intros sent. subst sent. cbv beta.
  split; [|split; [|split]].
  - unfold CodeHandler.analyze.
    destruct (text_generate_effect client
                (PromptString ("Analyze this code and explain what it does:"
                               +:+ newline +:+ newline +:+ code)) options w)
      as (evs & Hw & Hreqs & _).
    cbv zeta in Hw, Hreqs. exists evs. rewrite Hw. split; [done|].
    eapply Forall_impl; [exact Hreqs|]. by intros request <-.
  - unfold CodeHandler.improve.
    destruct (text_generate_effect client
                (PromptString ("Suggest improvements for this code:"
                               +:+ newline +:+ newline +:+ code)) options w)
      as (evs & Hw & Hreqs & _).
    cbv zeta in Hw, Hreqs. exists evs. rewrite Hw. split; [done|].
    eapply Forall_impl; [exact Hreqs|]. by intros request <-.
  - intros instruction code' H.
    by do 3 apply append_cancel_l in H.
  - intros Hnone. simpl. by rewrite Hnone.
Qed.

(** ** The vision handler *)

(** X9. A string image that starts neither with ['data:'] nor with
    ['http'] is rejected before anything is sent: [analyze] throws the
    Error 'Image must be a URL, base64 string, Blob, or File' and
    leaves the world, its trace included, as it was. *)
Theorem analyze_rejects_other_strings client s prompt options w :
  String.prefix "data:" s = false ->
  String.prefix "http" s = false ->
  VisionHandler.analyze client (ImageString s) prompt options w
  = (Throw (OtherError "Error" "Image must be a URL, base64 string, Blob, or File"), w).
Proof.
  intros Hdata Hhttp. unfold VisionHandler.analyze, bind, lift. simpl.
  by rewrite Hdata, Hhttp.
Qed.

Lemma analyze_rejects_other_strings_witness :
  VisionHandler.analyze default_client (ImageString "image.png") None
    GenerationOptions.empty (world_of always_503)
  = (Throw (OtherError "Error" "Image must be a URL, base64 string, Blob, or File"),
     world_of always_503).
Proof.
  apply (analyze_rejects_other_strings default_client "image.png" None
           GenerationOptions.empty (world_of always_503)); reflexivity.
Defined.

(** X10. [VisionHandler.analyze] on an accepted image, in every
    execution: a string that starts with ['data:'] or ['http'] is sent
    as it is, as inline data of type image/jpeg whatever the string
    says; a blob is sent as its base64 text with its own type, or
    image/jpeg when its type is empty; each request carries exactly two
    parts, the image and then the prompt (the default prompt when none
    is given), and never stop sequences or safety settings, whatever
    the options say. *)
Theorem analyze_requests client image prompt options w part :
  VisionHandler.imagePart_of image = Return part ->
  let run := VisionHandler.analyze client image prompt options w in
  (forall s, image = ImageString s -> part = InlineDataPart "image/jpeg" s)
  /\ (forall b, image = ImageBlob b ->
        part = InlineDataPart
                 (if truthy (blob_type b) then blob_type b else "image/jpeg")
                 (blob_base64 b))
  /\ exists evs,
       trace (snd run) = trace w ++ evs
       /\ Forall (fun request =>
                    exists config,
                      req_body request
                      = GenerateContentBody
                          [ {| role := None;
                               parts := [part;
                                         TextPart (match prompt with
                                                   | Some p => p
                                                   | None => "Describe this image in detail"
                                                   end)] |} ]
                          config None
                      /\ stopSequences config = None)
            (requests evs).
Proof.
  intros Hpart run. split; [|split].
  - intros s ->. simpl in Hpart.
    destruct (String.prefix "data:" s || String.prefix "http" s); [|done].
    by injection Hpart as <-.
  - intros b ->. simpl in Hpart. injection Hpart as <-. by unfold js_or.
  - subst run. unfold VisionHandler.analyze, bind, lift. rewrite Hpart.
    match goal with |- context [GeminiClient.request ?c ?e (fun _ => ?p) w] =>
      destruct (request_sends c e p w) as (evs & Hw & Hreqs);
      destruct (GeminiClient.request c e (fun _ => p) w) as [[response|e'] w']
    end; simpl in Hw; subst w'; exists evs.
    + split; [by destruct (TextResponse.constructor response)|].
      eapply Forall_impl; [exact Hreqs|]. intros request <-. by eexists.
    + split; [done|].
      eapply Forall_impl; [exact Hreqs|]. intros request <-. by eexists.
Qed.

Lemma analyze_requests_witness :
  exists evs,
    trace (snd (VisionHandler.analyze default_client
                  (ImageString "data:image/png;base64,AAAA") None
                  GenerationOptions.empty (world_of always_503)))
    = trace (world_of always_503) ++ evs
    /\ Forall (fun request =>
                 exists config,
                   req_body request
                   = GenerateContentBody
                       [ {| role := None;
                            parts := [InlineDataPart "image/jpeg" "data:image/png;base64,AAAA";
                                      TextPart "Describe this image in detail"] |} ]
                       config None
                   /\ stopSequences config = None)
         (requests evs).
Proof.
  apply (analyze_requests default_client (ImageString "data:image/png;base64,AAAA") None
           GenerationOptions.empty (world_of always_503)
           (InlineDataPart "image/jpeg" "data:image/png;base64,AAAA")).
  reflexivity.
Defined.

(** ** [setModel], embeddings and [listModels] *)

(** The request executor does not read the client's model. *)
Lemma request_loop_setModel fuel this model url data : forall retries w,
  GeminiClient.request_loop fuel (setModel this model) url data retries w
  = GeminiClient.request_loop fuel this url data retries w.
Proof.
  induction fuel as [|fuel IH]; intros retries w; [done|].
  rewrite !RequestFacts.request_loop_step. simpl GeminiClient.maxRetries.
  change (GeminiClient.request_of (setModel this model) url data w)
    with (GeminiClient.request_of this url data w).
  destruct (retries <=? GeminiClient.maxRetries this)%Z; [|done]. cbv zeta.
  destruct (GeminiClient.settle _); [done|].
  destruct (String.eqb _ _); [done|].
  destruct (_ || _); [done|]. apply IH.
Qed.

Lemma request_setModel this model endpoint data w :
  GeminiClient.request (setModel this model) endpoint data w
  = GeminiClient.request this endpoint data w.
Proof.
  unfold GeminiClient.request.
  change (GeminiClient.fuel_from (setModel this model) 0) with (GeminiClient.fuel_from this 0).
  change (GeminiClient.url_of (setModel this model) endpoint)
    with (GeminiClient.url_of this endpoint).
  by rewrite request_loop_setModel.
Qed.

(** X11. The embeddings handler never uses the client's model: after
    [setModel], whatever the new model, [EmbeddingsHandler.generate]
    behaves as before. In every execution each of its requests goes to
    [models/{m}:embedContent] and names [models/{m}] in its body, for
    the same [m]: [options.model] when that is a non-empty string, and
    ['embedding-001'] otherwise. *)
Theorem embeddings_ignore_client_model client model texts options w :
  let m := GenerationOptions.model options <||> "embedding-001" in
  EmbeddingsHandler.generate (setModel client model) texts options w
  = EmbeddingsHandler.generate client texts options w
  /\ exists evs,
       trace (snd (EmbeddingsHandler.generate client texts options w)) = trace w ++ evs
       /\ Forall (fun request =>
                    req_url request
                    = GeminiClient.baseUrl client +:+ "/" +:+
                      ("models/" +:+ m +:+ ":embedContent")
                      +:+ "?key=" +:+ GeminiClient.apiKey client
                    /\ exists content_parts,
                         req_body request
                         = EmbedContentBody ("models/" +:+ m) content_parts)
            (requests evs).
Proof.
  intros m. split.
  - unfold EmbeddingsHandler.generate, bind. by rewrite request_setModel.
  - unfold EmbeddingsHandler.generate, bind, ret. fold m.
    match goal with |- context [GeminiClient.request ?c ?e (fun _ => ?p) w] =>
      destruct (request_sends c e p w) as (evs & Hw & Hreqs);
      destruct (GeminiClient.request c e (fun _ => p) w) as [[response|e'] w']
    end; simpl in Hw; subst w'; exists evs; (split; [done|]);
      (eapply Forall_impl; [exact Hreqs|]); intros request <-; (split; [done|]);
      by eexists.
Qed.

(** X12. A success response without an [embeddings] property (the
    body [{}], or one that holds a single [embedding]) does not make
    the embeddings call fail: when the first attempt gets such a
    response, [generate] returns after that attempt and [embeddings()]
    returns the empty list, whatever the number of input texts. *)
Theorem embeddings_absent_gives_empty client texts options w body :
  let endpoint :=
    "models/" +:+ (GenerationOptions.model options <||> "embedding-001")
    +:+ ":embedContent" in
  let request :=
    {| req_url := GeminiClient.url_of client endpoint;
       req_body := EmbeddingsHandler.generate_data texts options;
       req_timeout := GeminiClient.timeout client |} in
  (0 <= GeminiClient.maxRetries client)%Z ->
  succeeds_with (network w (fetch_count (trace w)) request) body ->
  embeddings body = None ->
  exists response,
    EmbeddingsHandler.generate client texts options w
    = (Return response, log_events [EvFetch request] w)
    /\ EmbeddingsResponse.embeddings response = Return [].
Proof.
  intros endpoint request Hmax Hok Hnone.
  unfold EmbeddingsHandler.generate, bind, ret. fold endpoint.
  rewrite (RequestFacts.request_returns_at_once client endpoint _ w body Hmax Hok).
  eexists. split; [reflexivity|].
  unfold EmbeddingsResponse.embeddings. simpl. by rewrite Hnone.
Qed.

Lemma embeddings_absent_gives_empty_witness :
  exists response,
    EmbeddingsHandler.generate default_client (ManyTexts ["a"; "b"]) GenerationOptions.empty
      (world_of (flaky_network 0 200 empty_body))
    = (Return response,
       log_events
         [EvFetch
            {| req_url :=
                 GeminiClient.url_of default_client
                   ("models/" +:+ (GenerationOptions.model GenerationOptions.empty
                                   <||> "embedding-001") +:+ ":embedContent");
               req_body :=
                 EmbeddingsHandler.generate_data (ManyTexts ["a"; "b"]) GenerationOptions.empty;
               req_timeout := GeminiClient.timeout default_client |}]
         (world_of (flaky_network 0 200 empty_body)))
    /\ EmbeddingsResponse.embeddings response = Return [].
Proof.
  apply (embeddings_absent_gives_empty default_client (ManyTexts ["a"; "b"])
           GenerationOptions.empty (world_of (flaky_network 0 200 empty_body)) empty_body).
  - simpl. lia.
  - by eexists.
  - reflexivity.
Defined.

(** X13. [listModels] against a service that answers its first attempt
    with a success response: one POST of the empty object goes to
    [{baseUrl}/models?key={apiKey}], and the call returns the [models]
    of the body, or the empty list when the body has none; it never
    returns [undefined]. *)
Theorem listModels_returns_models_or_empty this w body :
  let request :=
    {| req_url := GeminiClient.baseUrl this +:+ "/" +:+ "models" +:+ "?key="
                  +:+ GeminiClient.apiKey this;
       req_body := EmptyBody;
       req_timeout := GeminiClient.timeout this |} in
  (0 <= GeminiClient.maxRetries this)%Z ->
  succeeds_with (network w (fetch_count (trace w)) request) body ->
  GeminiClient.listModels this w
  = (Return (match models body with Some l => l | None => [] end),
     log_events [EvFetch request] w).
Proof.
  intros request Hmax Hok. unfold GeminiClient.listModels, bind, ret.
  rewrite (RequestFacts.request_returns_at_once this "models" _ w body Hmax Hok).
  simpl. unfold js_or. by destruct (models body).
Qed.

Lemma listModels_returns_models_or_empty_witness :
  GeminiClient.listModels default_client (world_of (flaky_network 0 200 models_body))
  = (Return (match models models_body with Some l => l | None => [] end),
     log_events
       [EvFetch
          {| req_url := GeminiClient.baseUrl default_client +:+ "/" +:+ "models" +:+ "?key="
                        +:+ GeminiClient.apiKey default_client;
             req_body := EmptyBody;
             req_timeout := GeminiClient.timeout default_client |}]
       (world_of (flaky_network 0 200 models_body))).
Proof.
  apply (listModels_returns_models_or_empty default_client
           (world_of (flaky_network 0 200 models_body)) models_body).
  - simpl. lia.
  - by eexists.
Defined.

(** ** More on chat sessions *)

(** X14. [setModel] changes where text generation goes and leaves
    existing chat sessions alone: after [setModel(model)], a
    [TextHandler.generate] call without a model option sends every
    request to [models/{model}:generateContent], while a [send] on a
    session created earlier behaves exactly as before, since the
    session took its model when it was created. *)
Theorem setModel_affects_generate_not_sessions client model this prompt options message w :
  GenerationOptions.model options = None ->
  (exists evs,
     trace (snd (TextHandler.generate (setModel client model) prompt options w))
     = trace w ++ evs
     /\ Forall (fun request =>
                  req_url request
                  = GeminiClient.baseUrl client +:+ "/" +:+
                    ("models/" +:+ model +:+ ":generateContent")
                    +:+ "?key=" +:+ GeminiClient.apiKey client)
          (requests evs))
  /\ ChatSession.send (session_after_setModel this model) message options w
     = ChatSession.send this message options w.
Proof.
  intros Hnone. split.
  - destruct (text_generate_effect (setModel client model) prompt options w)
      as (evs & Hw & Hreqs & _).
    cbv zeta in Hw, Hreqs. rewrite Hnone in Hreqs. exists evs. rewrite Hw.
    split; [done|]. eapply Forall_impl; [exact Hreqs|]. by intros request <-.
  - rewrite !ChatFacts.send_unfold.
    unfold heap_at_request, contents_loc, session_after_setModel. simpl.
    by rewrite request_setModel.
Qed.

Lemma setModel_affects_generate_not_sessions_witness :
  ChatSession.send (session_after_setModel sample_session "gemini-1.5-flash") "hi"
    GenerationOptions.empty (session_world one_reply_network)
  = ChatSession.send sample_session "hi" GenerationOptions.empty
      (session_world one_reply_network).
Proof.
  apply (setModel_affects_generate_not_sessions default_client "gemini-1.5-flash"
           sample_session (PromptString "hi") GenerationOptions.empty "hi"
           (session_world one_reply_network)).
  reflexivity.
Defined.

(** A [send] changes no array that existed before the call, other than
    the session's own turn log. *)
Lemma send_frame this message options w (l : nat) :
  l ∈ dom (heap w) -> l <> ChatSession.messages this ->
  heap (snd (ChatSession.send this message options w)) !! l = heap w !! l.
Proof.
  intros Hdom Hne. rewrite ChatFacts.send_unfold. cbv zeta.
  set (w3 := set_heap _ w).
  assert (H3 : heap w3 !! l = heap w !! l).
  { subst w3. simpl. unfold heap_at_request. cbv zeta.
    set (h1 := alter _ (ChatSession.messages this) (heap w)).
    assert (Hfresh : fresh (dom h1) <> l).
    { intros Heq. apply (is_fresh (dom h1)). rewrite Heq. subst h1.
      by rewrite dom_alter_L. }
    assert (H1 : h1 !! l = heap w !! l) by (subst h1; by rewrite lookup_alter_ne).
    destruct (truthy (ChatSession.systemPrompt this)).
    - by rewrite lookup_alter_ne, lookup_insert_ne.
    - by rewrite lookup_insert_ne. }
  pose proof (request_heap (ChatSession.client this)
                ("models/" +:+ ChatSession.model this +:+ ":generateContent")
                (ChatSession.send_data (contents_loc this message (heap w)) options) w3)
    as Hheap.
  destruct (GeminiClient.request _ _ _ _) as [[response|e] w4]; simpl in Hheap.
  2:{ simpl. by rewrite Hheap. }
  destruct (TextResponse.constructor response) as [textResponse|e]; simpl.
  2:{ by rewrite Hheap. }
  destruct (TextResponse.text textResponse) as [text|e]; simpl.
  - by rewrite lookup_alter_ne, Hheap.
  - by rewrite Hheap.
Qed.

(** [new ChatSession] allocates a new, empty array and touches nothing
    else. *)
Lemma constructor_effect client options w :
  exists this,
    ChatSession.constructor client options w
    = (Return this, set_heap (<[ChatSession.messages this := []]> (heap w)) w)
    /\ (ChatSession.messages this ∉ dom (heap w))
    /\ ChatSession.model this = ChatOptions.model options <||> GeminiClient.model client
    /\ ChatSession.systemPrompt this = ChatOptions.systemPrompt options <||> "".
Proof.
  exists {| ChatSession.client := client;
            ChatSession.model := ChatOptions.model options <||> GeminiClient.model client;
            ChatSession.messages := fresh (dom (heap w));
            ChatSession.systemPrompt := ChatOptions.systemPrompt options <||> "" |}.
  split; [reflexivity|]. simpl. split; [apply is_fresh|done].
Qed.

(** X15. Sessions are isolated: two sessions created one after the
    other, from any world, have turn logs in different arrays, both
    empty; and a [send] on the first, whatever its outcome, leaves the
    log of the second empty while the log of the first begins with the
    new user turn. *)
Theorem sessions_are_isolated client1 options1 client2 options2 message options w :
  exists s1 s2 w1 w2,
    chat client1 options1 w = (Return s1, w1)
    /\ chat client2 options2 w1 = (Return s2, w2)
    /\ ChatSession.messages s1 <> ChatSession.messages s2
    /\ ChatSession.history s1 w2 = []
    /\ ChatSession.history s2 w2 = []
    /\ ChatSession.history s2 (snd (ChatSession.send s1 message options w2)) = []
    /\ exists tail,
         ChatSession.history s1 (snd (ChatSession.send s1 message options w2))
         = ChatSession.user_turn message :: tail.
Proof.
  unfold chat.
  destruct (constructor_effect client1 options1 w) as (s1 & Hc1 & Hf1 & _).
  set (w1 := set_heap _ w) in Hc1.
  destruct (constructor_effect client2 options2 w1) as (s2 & Hc2 & Hf2 & _).
  set (w2 := set_heap _ w1) in Hc2.
  exists s1, s2, w1, w2. split; [done|]. split; [done|].
  assert (Hne : ChatSession.messages s1 <> ChatSession.messages s2).
  { intros Heq. apply Hf2. rewrite <- Heq. subst w1. simpl.
    rewrite dom_insert_L. set_solver. }
  assert (H1 : heap w2 !! ChatSession.messages s1 = Some []).
  { subst w2 w1. simpl. rewrite lookup_insert_ne by done. by rewrite lookup_insert_eq. }
  assert (H2 : heap w2 !! ChatSession.messages s2 = Some []).
  { subst w2. simpl. by rewrite lookup_insert_eq. }
  split; [done|].
  split; [by apply lookup_total_correct|].
  split; [by apply lookup_total_correct|].
  split.
  - unfold ChatSession.history. apply lookup_total_correct.
    rewrite send_frame; [done| |done]. by apply elem_of_dom_2 in H2.
  - destruct (ChatFacts.send_effect s1 message options w2 [] H1) as (evs & _ & _ & _ & _ & Hs).
    unfold ChatSession.history.
    destruct (fst (ChatSession.send s1 message options w2)) as [textResponse|e].
    + destruct Hs as (text & _ & Hheap & _). eexists.
      by rewrite (lookup_total_correct _ _ _ Hheap).
    + exists []. by rewrite (lookup_total_correct _ _ _ Hs).
Qed.

(** X16. [clear()] points the session at a new, empty array: the
    history is then empty, nothing is sent, and the array that
    [getHistory()] handed out before still holds the old turns (it is
    not emptied). A later [send] then behaves as on a new session: each
    of its requests carries only the system turn, when a system prompt
    is set, and the new user turn. *)
Theorem clear_resets_history this w log message options :
  heap w !! ChatSession.messages this = Some log ->
  exists this' w',
    ChatSession.clear this w = (Return this', w')
    /\ ChatSession.history this' w' = []
    /\ heap w' !! ChatSession.getHistory this = Some log
    /\ ChatSession.getHistory this' <> ChatSession.getHistory this
    /\ trace w' = trace w
    /\ ChatSession.systemPrompt this' = ChatSession.systemPrompt this
    /\ exists evs,
         trace (snd (ChatSession.send this' message options w')) = trace w' ++ evs
         /\ Forall (fun request =>
                      body_contents (req_body request)
                      = Some ((if truthy (ChatSession.systemPrompt this)
                               then [ChatSession.system_turn (ChatSession.systemPrompt this)]
                               else [])
                              ++ [ChatSession.user_turn message]))
              (requests evs).
Proof.
  intros Hlog. eexists _, _. split; [reflexivity|]. simpl.
  set (l := fresh (dom (heap w))).
  assert (Hne : l <> ChatSession.messages this).
  { intros Heq. apply (is_fresh (dom (heap w))). fold l. rewrite Heq.
    by apply elem_of_dom_2 in Hlog. }
  split; [unfold ChatSession.history; simpl; by rewrite lookup_total_insert_eq|].
  split; [unfold ChatSession.getHistory; by rewrite lookup_insert_ne|].
  split; [done|]. split; [done|]. split; [done|].
  match goal with |- context [ChatSession.send ?s message options ?w0] =>
    destruct (ChatFacts.send_effect s message options w0 []) as (evs & Htrace & _ & Hreqs & _)
  end.
  { simpl. by rewrite lookup_insert_eq. }
  exists evs. split; [done|].
  eapply Forall_impl; [exact Hreqs|]. by intros request ->.
Qed.

Lemma clear_resets_history_witness :
  exists this' w',
    ChatSession.clear sample_session
      (snd (ChatSession.send sample_session "hi" GenerationOptions.empty
              (session_world one_reply_network)))
    = (Return this', w')
    /\ ChatSession.history this' w' = []
    /\ heap w' !! ChatSession.getHistory sample_session
       = Some [ChatSession.user_turn "hi"; ChatSession.model_turn "hello"]
    /\ ChatSession.getHistory this' <> ChatSession.getHistory sample_session
    /\ trace w'
       = trace (snd (ChatSession.send sample_session "hi" GenerationOptions.empty
                       (session_world one_reply_network)))
    /\ ChatSession.systemPrompt this' = ChatSession.systemPrompt sample_session
    /\ exists evs,
         trace (snd (ChatSession.send this' "again" GenerationOptions.empty w'))
         = trace w' ++ evs
         /\ Forall (fun request =>
                      body_contents (req_body request)
                      = Some ((if truthy (ChatSession.systemPrompt sample_session)
                               then [ChatSession.system_turn
                                       (ChatSession.systemPrompt sample_session)]
                               else [])
                              ++ [ChatSession.user_turn "again"]))
              (requests evs).
Proof.
  apply (clear_resets_history sample_session
           (snd (ChatSession.send sample_session "hi" GenerationOptions.empty
                   (session_world one_reply_network)))
           [ChatSession.user_turn "hi"; ChatSession.model_turn "hello"]
           "again" GenerationOptions.empty).
  vm_compute. reflexivity.
Defined.

(** X17. After a failed [send] the unanswered user turn is sent again
    with the next message: when a [send] throws, every request of the
    next [send] carries the log with the two user turns one after the
    other, and when that call returns the log holds them followed by a
    single model turn, so user and model turns no longer alternate. *)
Theorem failed_send_is_resent_with_next this m1 o1 m2 o2 w log e :
  heap w !! ChatSession.messages this = Some log ->
  fst (ChatSession.send this m1 o1 w) = Throw e ->
  let w1 := snd (ChatSession.send this m1 o1 w) in
  let run := ChatSession.send this m2 o2 w1 in
  (exists evs,
     trace (snd run) = trace w1 ++ evs
     /\ Forall (fun request =>
                  body_contents (req_body request)
                  = Some ((if truthy (ChatSession.systemPrompt this)
                           then [ChatSession.system_turn (ChatSession.systemPrompt this)]
                           else [])
                          ++ log ++ [ChatSession.user_turn m1; ChatSession.user_turn m2]))
          (requests evs))
  /\ (forall response,
        fst run = Return response ->
        exists text,
          TextResponse.text response = Return text
          /\ ChatSession.history this (snd run)
             = log ++ [ChatSession.user_turn m1; ChatSession.user_turn m2;
                       ChatSession.model_turn text]).
Proof.
  intros Hlog Hthrow w1 run.
  destruct (ChatFacts.send_effect this m1 o1 w log Hlog) as (_ & _ & _ & _ & _ & H1).
  rewrite Hthrow in H1. fold w1 in H1.
  destruct (ChatFacts.send_effect this m2 o2 w1 _ H1) as (evs & Htrace & _ & Hreqs & _ & H2).
  fold run in Htrace, H2. split.
  - exists evs. split; [done|].
    eapply Forall_impl; [exact Hreqs|]. intros request ->. simpl.
    unfold send_contents. by rewrite <- !app_assoc.
  - intros response Hrun. rewrite Hrun in H2.
    destruct H2 as (text & Htext & Hheap & _). exists text. split; [done|].
    unfold ChatSession.history. rewrite (lookup_total_correct _ _ _ Hheap).
    by rewrite <- !app_assoc.
Qed.

Lemma failed_send_is_resent_with_next_witness :
  exists evs,
    trace (snd (ChatSession.send sample_session "again" GenerationOptions.empty
                  (snd (ChatSession.send sample_session "hi" GenerationOptions.empty
                          (session_world (flaky_network 1 400 (reply "hello")))))))
    = trace (snd (ChatSession.send sample_session "hi" GenerationOptions.empty
                    (session_world (flaky_network 1 400 (reply "hello")))))
      ++ evs
    /\ Forall (fun request =>
                 body_contents (req_body request)
                 = Some ((if truthy (ChatSession.systemPrompt sample_session)
                          then [ChatSession.system_turn
                                  (ChatSession.systemPrompt sample_session)]
                          else [])
                         ++ [] ++ [ChatSession.user_turn "hi";
                                   ChatSession.user_turn "again"]))
         (requests evs).
Proof.
  apply (failed_send_is_resent_with_next sample_session "hi" GenerationOptions.empty
           "again" GenerationOptions.empty
           (session_world (flaky_network 1 400 (reply "hello"))) []
           (GeminiError "[object Object]" 400)).
  - reflexivity.
  - reflexivity.
Defined.

Example failed_then_answered :
  ChatSession.history sample_session
    (snd (ChatSession.send_all sample_session two_calls
            (session_world (flaky_network 1 400 (reply "hello")))))
  = [ChatSession.user_turn "hi"; ChatSession.user_turn "again";
     ChatSession.model_turn "hello"].
Proof. vm_compute. reflexivity. Qed.

(** ** Response wrappers and the constructor *)


(** X19. When [text()] throws: exactly when there is a first candidate
    and it has no [content] (a response blocked by the service, say);
    with no candidates it returns the empty string, and
    [safetyRatings()] never throws. *)
Theorem text_throws_iff_content_missing (this : TextResponse.t) :
  ((exists error, TextResponse.text this = Throw error)
   <-> exists candidate,
         TextResponse._candidates this !! 0%nat = Some candidate
         /\ content candidate = None)
  /\ (TextResponse._candidates this = [] -> TextResponse.text this = Return "")
  /\ exists ratings, TextResponse.safetyRatings this = Return ratings.
Proof.
  unfold TextResponse.text, TextResponse.safetyRatings.
  destruct (TextResponse._candidates this) as [|candidate rest]; simpl.
  - split; [|split; [done|by eexists]].
    split; [by intros [error H]|by intros (candidate & H & _)].
  - split; [|split; [done|by eexists]].
    destruct (content candidate) as [c|] eqn:Hc.
    + split; [by intros [error H]|]. intros (candidate' & [= <-] & H). congruence.
    + split; [|by eexists]. intros _. by exists candidate.
Qed.

(** X20. A success response whose first candidate has no [content]
    makes [send] fail after the network call succeeded: the call throws
    a TypeError after its single attempt, and the user turn stays in
    the log without a model turn. *)
Theorem send_fails_on_candidate_without_content this message options w log body
    candidate rest :
  let request :=
    {| req_url := GeminiClient.url_of (ChatSession.client this)
                    ("models/" +:+ ChatSession.model this +:+ ":generateContent");
       req_body := GenerateContentBody (send_contents this log message)
                     (send_config options) None;
       req_timeout := GeminiClient.timeout (ChatSession.client this) |} in
  heap w !! ChatSession.messages this = Some log ->
  (0 <= GeminiClient.maxRetries (ChatSession.client this))%Z ->
  succeeds_with (network w (fetch_count (trace w)) request) body ->
  candidates body = Some (candidate :: rest) ->
  content candidate = None ->
  let run := ChatSession.send this message options w in
  (exists description, fst run = Throw (TypeError description))
  /\ trace (snd run) = trace w ++ [EvFetch request]
  /\ ChatSession.history this (snd run) = log ++ [ChatSession.user_turn message].
Proof.
  intros request Hlog Hmax Hok Hcands Hcontent run. subst run.
  destruct (ChatFacts.heap_at_request_lookup this message (heap w) log Hlog)
    as (Hne & Hm & Hc).
  rewrite ChatFacts.send_unfold. cbv zeta.
  set (w3 := set_heap _ w).
  set (endpoint := "models/" +:+ ChatSession.model this +:+ ":generateContent").
  set (data := ChatSession.send_data _ options).
  assert (Hreq : GeminiClient.request_of (ChatSession.client this)
                   (GeminiClient.url_of (ChatSession.client this) endpoint) data w3
                 = request).
  { subst request data w3. unfold GeminiClient.request_of, ChatSession.send_data. simpl.
    by rewrite Hc. }
  rewrite (RequestFacts.request_returns_at_once (ChatSession.client this) endpoint data w3
             body Hmax); [|by rewrite Hreq].
  rewrite Hreq. simpl. unfold TextResponse.text. simpl. rewrite Hcands. simpl.
  rewrite Hcontent. simpl. split; [by eexists|]. split; [done|].
  unfold ChatSession.history. simpl. by apply lookup_total_correct.
Qed.

Lemma send_fails_on_candidate_without_content_witness :
  (exists description,
     fst (ChatSession.send sample_session "hi" GenerationOptions.empty
            (session_world (flaky_network 0 200 blocked_body)))
     = Throw (TypeError description))
  /\ trace (snd (ChatSession.send sample_session "hi" GenerationOptions.empty
                   (session_world (flaky_network 0 200 blocked_body))))
     = trace (session_world (flaky_network 0 200 blocked_body))
       ++ [EvFetch
             {| req_url := GeminiClient.url_of (ChatSession.client sample_session)
                             ("models/" +:+ ChatSession.model sample_session
                              +:+ ":generateContent");
                req_body := GenerateContentBody (send_contents sample_session [] "hi")
                              (send_config GenerationOptions.empty) None;
                req_timeout := GeminiClient.timeout (ChatSession.client sample_session) |}]
  /\ ChatSession.history sample_session
       (snd (ChatSession.send sample_session "hi" GenerationOptions.empty
               (session_world (flaky_network 0 200 blocked_body))))
     = [] ++ [ChatSession.user_turn "hi"].
Proof.
  apply (send_fails_on_candidate_without_content sample_session "hi" GenerationOptions.empty
           (session_world (flaky_network 0 200 blocked_body)) [] blocked_body
           {| content := None; candidate_safetyRatings := None |} []).
  - reflexivity.
  - simpl. lia.
  - by eexists.
  - reflexivity.
  - reflexivity.
Defined.

(** X21. What the constructor guarantees: it throws 'API key is
    required' exactly when the key is missing or empty; and every
    client it builds has a non-empty key and model, the fixed base URL,
    and a retry budget and a timeout that are never 0, each option
    being kept when it is not 0 and replaced by its default (3 and
    30000) when it is absent or 0; the model option is kept when it is
    a non-empty string and replaced by 'gemini-1.5-pro' otherwise. *)
Theorem constructor_guarantees (apiKey : option string) (options : ClientOptions.t) :
  (GeminiClient.constructor apiKey options
   = Throw (OtherError "Error" "API key is required")
   <-> apiKey = None \/ apiKey = Some "")
  /\ forall this,
       GeminiClient.constructor apiKey options = Return this ->
       apiKey = Some (GeminiClient.apiKey this)
       /\ GeminiClient.apiKey this <> ""
       /\ GeminiClient.model this <> ""
       /\ GeminiClient.baseUrl this = "https://generativelanguage.googleapis.com/v1beta"
       /\ GeminiClient.maxRetries this <> 0%Z
       /\ GeminiClient.timeout this <> 0%Z
       /\ (forall n, ClientOptions.maxRetries options = Some n -> n <> 0%Z ->
             GeminiClient.maxRetries this = n)
       /\ (ClientOptions.maxRetries options = None -> GeminiClient.maxRetries this = 3%Z)
       /\ (forall n, ClientOptions.timeout options = Some n -> n <> 0%Z ->
             GeminiClient.timeout this = n)
       /\ (ClientOptions.timeout options = None -> GeminiClient.timeout this = 30000%Z)
       /\ (ClientOptions.maxRetries options = Some 0%Z -> GeminiClient.maxRetries this = 3%Z)
       /\ (ClientOptions.timeout options = Some 0%Z -> GeminiClient.timeout this = 30000%Z)
       /\ (ClientOptions.model options = None \/ ClientOptions.model options = Some "" ->
           GeminiClient.model this = "gemini-1.5-pro")
       /\ (forall m, ClientOptions.model options = Some m -> m <> "" ->
             GeminiClient.model this = m).
Proof.
  unfold GeminiClient.constructor. split.
  - destruct apiKey as [[|c key]|]; simpl; split; try done; try (by eauto).
    intros [H|H]; discriminate.
  - intros this. destruct apiKey as [[|c key]|]; simpl; try done.
    intros [= <-]. simpl. repeat split; try done.
    + unfold js_or. destruct (ClientOptions.model options) as [[|c' m]|]; done.
    + unfold js_or, truthy, truthy_integer.
      destruct (ClientOptions.maxRetries options) as [n|]; [|done].
      destruct (Z.eqb_spec n 0); simpl; [done|done].
    + unfold js_or, truthy, truthy_integer.
      destruct (ClientOptions.timeout options) as [n|]; [|done].
      destruct (Z.eqb_spec n 0); simpl; [done|done].
    + intros n -> Hn. unfold js_or, truthy, truthy_integer.
      by destruct (Z.eqb_spec n 0).
    + by intros ->.
    + intros n -> Hn. unfold js_or, truthy, truthy_integer.
      by destruct (Z.eqb_spec n 0).
    + by intros ->.
    + by intros ->.
    + by intros ->.
    + by intros [-> | ->].
    + intros m -> Hm. by destruct m.
Qed.

(** ** Reading a blob *)

Lemma split_comma_none s : has_comma s = false -> split_comma s = [s].
Proof.
  induction s as [|c s IH]; cbn [has_comma split_comma]; [done|].
  intros H. apply orb_false_iff in H as [Hc Hs]. by rewrite Hc, (IH Hs).
Qed.

Lemma split_comma_header header rest :
  has_comma header = false ->
  split_comma (header +:+ String comma rest) = header :: split_comma rest.
Proof.
  induction header as [|c header IH]; cbn [has_comma].
  - intros _. change (split_comma (String comma rest) = "" :: split_comma rest).
    cbn [split_comma]. by rewrite Ascii.eqb_refl.
  - intros H. apply orb_false_iff in H as [Hc Hs].
    change (split_comma (String c (header +:+ String comma rest))
            = String c header :: split_comma rest).
    cbn [split_comma]. by rewrite Hc, (IH Hs).
Qed.

(** X22. [_blobToBase64] strips the header of the data URL: for a
    reader result made of a header without comma, a comma and a payload
    without comma (base64 text has none), it resolves with exactly the
    payload; if the payload held a comma, only the text before that
    comma would be kept; and for a result without any comma it resolves
    with [undefined]. *)
Theorem blobToBase64_strips_header (header payload rest : string) :
  has_comma header = false ->
  has_comma payload = false ->
  blobToBase64_result (header +:+ String comma payload) = Some payload
  /\ blobToBase64_result (header +:+ String comma (payload +:+ String comma rest))
     = Some payload
  /\ blobToBase64_result header = None.
Proof.
  intros Hh Hp. unfold blobToBase64_result. split; [|split].
  - by rewrite (split_comma_header _ _ Hh), (split_comma_none _ Hp).
  - by rewrite (split_comma_header _ _ Hh), (split_comma_header _ _ Hp).
  - by rewrite (split_comma_none _ Hh).
Qed.

Lemma blobToBase64_strips_header_witness :
  blobToBase64_result ("data:image/png;base64" +:+ String comma "iVBORw0KGgo=")
  = Some "iVBORw0KGgo="
  /\ blobToBase64_result
       ("data:image/png;base64" +:+ String comma ("iVBORw0KGgo=" +:+ String comma "x"))
     = Some "iVBORw0KGgo="
  /\ blobToBase64_result "data:image/png;base64" = None.
Proof.
  apply (blobToBase64_strips_header "data:image/png;base64" "iVBORw0KGgo=" "x");
    reflexivity.
Defined.

(** ** Errors that [request] throws *)

Lemma request_loop_throws fuel this url data : forall retries w error w',
  GeminiClient.request_loop fuel this url data retries w = Some (Throw error, w') ->
  exists n,
    w' = log_events (backoff_events (GeminiClient.request_of this url data w) n retries) w
    /\ ((retries + Z.of_nat n = GeminiClient.maxRetries this)%Z
        \/ isRetryableError error = false).
Proof.
  induction fuel as [|fuel IH]; intros retries w error w'.
  - simpl. by destruct (retries <=? GeminiClient.maxRetries this)%Z.
  - rewrite RequestFacts.request_loop_step.
    destruct (Z.leb_spec retries (GeminiClient.maxRetries this)); [|done]. cbv zeta.
    destruct (GeminiClient.settle _) as [body|error0]; [done|].
    destruct (String.eqb _ _).
    { intros [= <- <-]. exists 0%nat. split; [done|]. by right. }
    destruct (Z.gtb_spec (retries + 1) (GeminiClient.maxRetries this)); simpl orb.
    { intros [= <- <-]. exists 0%nat. split; [done|]. left. lia. }
    destruct (isRetryableError error0) eqn:Hretry; simpl negb.
    2:{ intros [= <- <-]. exists 0%nat. split; [done|]. by right. }
    intros Hloop. apply IH in Hloop as (n & -> & Hn).
    exists (S n). split.
    + change (GeminiClient.request_of this url data (log_events _ w))
        with (GeminiClient.request_of this url data w).
      by rewrite log_events_app.
    + destruct Hn as [Hn|Hn]; [left; lia|by right].
Qed.

(** X23. [request] never gives up early on a retryable error: when a
    call throws, either it has used its whole budget, [maxRetries + 1]
    attempts, or the error it throws is one that [isRetryableError]
    rejects (the 408 timeout error included). *)
Theorem request_never_gives_up_early this endpoint data w error :
  let request := GeminiClient.request_of this (GeminiClient.url_of this endpoint) data w in
  let run := GeminiClient.request this endpoint data w in
  fst run = Throw error ->
  exists n,
    snd run = log_events (retry_events request n) w
    /\ fetch_count (retry_events request n) = (n + 1)%nat
    /\ (Z.of_nat n = GeminiClient.maxRetries this \/ isRetryableError error = false).
Proof.
  intros request run. subst run. unfold GeminiClient.request.
  destruct (RequestFacts.request_loop_terminates
              (GeminiClient.fuel_from this 0) this (GeminiClient.url_of this endpoint)
              data 0 w ltac:(lia)) as [[c w'] Hloop].
  rewrite Hloop. simpl. intros ->.
  apply request_loop_throws in Hloop as (n & -> & Hn).
  exists n. change 0%Z with (Z.of_nat 0). rewrite RequestFacts.backoff_events_retry.
  split; [done|]. split.
  - unfold fetch_count. rewrite RequestFacts.requests_retry_events, repeat_length. lia.
  - destruct Hn as [Hn|Hn]; [left; lia|by right].
Qed.

Lemma request_never_gives_up_early_witness :
  exists n,
    snd (GeminiClient.request default_client "models/m:generateContent" (fun _ => EmptyBody)
           (world_of stalling_network))
    = log_events (retry_events sample_request n) (world_of stalling_network)
    /\ fetch_count (retry_events sample_request n) = (n + 1)%nat
    /\ (Z.of_nat n = GeminiClient.maxRetries default_client
        \/ isRetryableError (GeminiError "Request timed out" 408) = false).
Proof.
  apply (request_never_gives_up_early default_client "models/m:generateContent"
           (fun _ => EmptyBody) (world_of stalling_network)
           (GeminiError "Request timed out" 408)).
  reflexivity.
Defined.

(** X24. A session created without a system prompt, or with an empty
    one, sends no system turn: the requests of its first [send] carry
    the user turn alone and go to the model given in the chat options,
    or to the client's model when none is given. *)
Theorem chat_without_system_prompt client chatOptions message options w :
  ChatOptions.systemPrompt chatOptions = None
  \/ ChatOptions.systemPrompt chatOptions = Some "" ->
  exists this w1,
    chat client chatOptions w = (Return this, w1)
    /\ ChatSession.history this w1 = []
    /\ exists evs,
         trace (snd (ChatSession.send this message options w1)) = trace w ++ evs
         /\ Forall (fun request =>
                      body_contents (req_body request)
                      = Some [ChatSession.user_turn message]
                      /\ req_url request
                         = GeminiClient.baseUrl client +:+ "/" +:+
                           ("models/" +:+
                            (ChatOptions.model chatOptions <||> GeminiClient.model client)
                            +:+ ":generateContent")
                           +:+ "?key=" +:+ GeminiClient.apiKey client)
              (requests evs).
Proof.
  intros Hprompt. unfold chat.
  destruct (constructor_effect client chatOptions w) as (this & Hc & _ & Hmodel & Hsys).
  set (w1 := set_heap _ w) in Hc.
  assert (Hfalsy : truthy (ChatSession.systemPrompt this) = false).
  { rewrite Hsys. by destruct Hprompt as [-> | ->]. }
  assert (H1 : heap w1 !! ChatSession.messages this = Some []).
  { subst w1. simpl. by rewrite lookup_insert_eq. }
  assert (Htrace1 : trace w1 = trace w) by done.
  exists this, w1. split; [done|].
  split; [by apply lookup_total_correct|].
  clearbody w1. rewrite <- Htrace1.
  destruct (ChatFacts.heap_at_request_lookup this message (heap w1) [] H1) as (_ & _ & Hcont).
  rewrite ChatFacts.send_unfold. cbv zeta.
  set (w3 := set_heap _ w1).
  set (endpoint := "models/" +:+ ChatSession.model this +:+ ":generateContent").
  set (data := ChatSession.send_data _ options).
  destruct (request_events (ChatSession.client this) endpoint data w3)
    as (evs & Hw4 & Hreqs & _).
  cbv zeta in Hreqs.
  assert (Hclient : ChatSession.client this = client).
  { by injection Hc as <- _. }
  assert (Hall : Forall (fun request =>
                   body_contents (req_body request) = Some [ChatSession.user_turn message]
                   /\ req_url request
                      = GeminiClient.baseUrl client +:+ "/" +:+
                        ("models/" +:+
                         (ChatOptions.model chatOptions <||> GeminiClient.model client)
                         +:+ ":generateContent")
                        +:+ "?key=" +:+ GeminiClient.apiKey client)
                  (requests evs)).
  { eapply Forall_impl; [exact Hreqs|]. intros request <-. split.
    - subst data w3. simpl. unfold ChatSession.send_data. rewrite Hcont.
      unfold send_contents. by rewrite Hfalsy.
    - subst endpoint. simpl. unfold GeminiClient.url_of. by rewrite Hclient, Hmodel. }
  exists evs. split; [|done].
  destruct (GeminiClient.request _ _ _ _) as [[response|e] w4]; simpl in Hw4; subst w4;
    [|done].
  destruct (TextResponse.constructor response) as [textResponse|e]; [|done].
  by destruct (TextResponse.text textResponse).
Qed.

Lemma chat_without_system_prompt_witness :
  exists this w1,
    chat default_client ChatOptions.empty (world_of one_reply_network) = (Return this, w1)
    /\ ChatSession.history this w1 = []
    /\ exists evs,
         trace (snd (ChatSession.send this "hi" GenerationOptions.empty w1))
         = trace (world_of one_reply_network) ++ evs
         /\ Forall (fun request =>
                      body_contents (req_body request)
                      = Some [ChatSession.user_turn "hi"]
                      /\ req_url request
                         = GeminiClient.baseUrl default_client +:+ "/" +:+
                           ("models/" +:+
                            (ChatOptions.model ChatOptions.empty
                             <||> GeminiClient.model default_client)
                            +:+ ":generateContent")
                           +:+ "?key=" +:+ GeminiClient.apiKey default_client)
              (requests evs).
Proof.
  apply (chat_without_system_prompt default_client ChatOptions.empty "hi"
           GenerationOptions.empty (world_of one_reply_network)).
  by left.
Defined.
